(** * Mahabharat GPT: the render script of [app.py], embedded and verified

    [app.py] is a Streamlit script: the hosting runtime executes it from top
    to bottom once per render (first load, button click, chat submission).
    The embedding below follows the script statement by statement.  A render
    is a computation in a small state-and-exit monad over

    - the process-wide resource cache ([st.cache_resource]),
    - the per-session store ([st.session_state]),
    - the chronological log of everything the run emits: page elements and
      calls to the two external services (retriever and chat model).

    [st.stop()] and an unhandled exception both end the run early; whatever
    was written to the session store before that point stays written. *)

From Stdlib Require Import String Ascii List Bool Arith Lia.
Import ListNotations.
Local Open Scope string_scope.
Local Open Scope list_scope.

(** ** Python values used by the script *)

Module Py.

(** Truth value of a [str]: empty is false. *)
Definition truthy (s : string) : bool :=
  match s with
  | EmptyString => false
  | String _ _ => true
  end.

(** Truth value of a name bound to [None] or to a [str]. *)
Definition truthy_opt (o : option string) : bool :=
  match o with
  | None => false
  | Some s => truthy s
  end.

(** [sep.join(parts)]. *)
Fixpoint join (sep : string) (parts : list string) : string :=
  match parts with
  | [] => ""
  | [p] => p
  | p :: rest => (p ++ sep ++ join sep rest)%string
  end.

(** The one-character string written [\n] in Python source. *)
Definition nl : string := String (ascii_of_nat 10) EmptyString.

(** [needle in hay] for strings, as a proposition. *)
Definition occurs_in (needle hay : string) : Prop :=
  exists before after, hay = (before ++ needle ++ after)%string.

End Py.

(** ** Data model *)

(** [langchain_core.messages]: the three message classes the script uses. *)
Inductive Message : Type :=
| HumanMessage (content : string)
| AIMessage (content : string)
| SystemMessage (content : string).

Definition content (m : Message) : string :=
  match m with
  | HumanMessage c | AIMessage c | SystemMessage c => c
  end.

Definition is_system (m : Message) : bool :=
  match m with
  | SystemMessage _ => true
  | _ => false
  end.

(** A retrieved passage: only [page_content] is read. *)
Record Document : Type := { page_content : string }.

(** [st.session_state]: the two keys the script touches.  [None] is an
    absent key. *)
Record SessionState : Type := {
  messages : option (list Message);
  prompt_input : option string
}.

(** What [get_engine] builds. *)
Record Retriever : Type := { search_k : nat }.

Record ChatModel : Type := {
  model : string;
  convert_system_message_to_human : bool
}.

Definition Engine : Type := (option Retriever * option ChatModel)%type.

(** Process-wide state: the memo of [@st.cache_resource]. *)
Record Process : Type := { engine_cache : option Engine }.

(** Everything outside the script that one run can observe.  The two
    services answer [None] when the call raises. *)
Record World : Type := {
  secrets : string -> option string;
  path_exists : string -> bool;
  similarity_search : string -> nat -> option (list Document);
  generate : list Message -> option string
}.

(** What the browser sends with the run: which button was pressed, and the
    value returned by [st.chat_input]. *)
Record Input : Type := {
  clicked : string -> bool;
  chat_input_val : option string
}.

(** The log of a run. *)
Inductive Event : Type :=
| EPageConfig (page_title : string)
| EStyle
| EEnviron (key value : string)
| EError (body : string)
| EMarkdown (body : string)
| EExpander (label : string) (expanded : bool)
| EButton (label : string)
| EInfo (body : string)
| EHeader
| EChatMessage (role : string)
| EWrite (body : string)
| ESpinner (text : string)
| EChatInput (placeholder : string)
| ERetrieve (query : string) (k : nat)
| EGenerate (request : list Message).

(** ** The run monad *)

Record Run : Type := {
  proc : Process;
  session : SessionState;
  trace : list Event
}.

Inductive Outcome : Type := Stopped | Raised.

Inductive Res (A : Type) : Type :=
| Ret (a : A) (r : Run)
| Halt (o : Outcome) (r : Run).

Arguments Ret {A} a r.
Arguments Halt {A} o r.

Definition M (A : Type) : Type := Run -> Res A.

Definition ret {A} (a : A) : M A := fun r => Ret a r.

Definition bind {A B} (m : M A) (k : A -> M B) : M B :=
  fun r =>
    match m r with
    | Ret a r' => k a r'
    | Halt o r' => Halt o r'
    end.

Declare Scope run_scope.
Delimit Scope run_scope with run.
Bind Scope run_scope with M.

Notation "x <- m ;; k" := (bind m (fun x => k))
  (at level 61, m at next level, right associativity) : run_scope.
Notation "m ;; k" := (bind m (fun _ => k))
  (at level 61, right associativity) : run_scope.

Local Open Scope run_scope.

Definition run_of {A} (x : Res A) : Run :=
  match x with
  | Ret _ r => r
  | Halt _ r => r
  end.

Definition emit (e : Event) : M unit :=
  fun r => Ret tt {| proc := proc r; session := session r; trace := trace r ++ [e] |}.

(** [st.stop()]. *)
Definition st_stop {A} : M A := fun r => Halt Stopped r.

(** An exception nobody catches. *)
Definition raise {A} : M A := fun r => Halt Raised r.

Definition get_session : M SessionState := fun r => Ret (session r) r.

Definition put_session (s : SessionState) : M unit :=
  fun r => Ret tt {| proc := proc r; session := s; trace := trace r |}.

Definition get_cache : M (option Engine) := fun r => Ret (engine_cache (proc r)) r.

Definition put_cache (e : Engine) : M unit :=
  fun r => Ret tt {| proc := {| engine_cache := Some e |};
                     session := session r; trace := trace r |}.

(** ** The script *)

Definition GOOGLE_API_KEY : string := "GOOGLE_API_KEY".
Definition DB_PATH : string := "./mahabharat_db".

Definition GREETING : string :=
  "Pranam, seeker of truth. I am the chronicler of the Great War. Ask, and I shall recite from the ancient texts.".

Definition MISSING_KEY : string :=
  "Missing API Key. Please add it to Streamlit Secrets.".

Definition MISSING_DB : string :=
  "⚠️ The Sacred Texts (Database) are missing. Please run the ingestion script first.".

(** Section 3 of the script: the key check. *)
Definition logic_setup (w : World) : M unit :=
  match secrets w GOOGLE_API_KEY with
  | Some v => emit (EEnviron GOOGLE_API_KEY v)
  | None =>
      emit (EError MISSING_KEY) ;;
      st_stop
  end.

(** Body of [get_engine]. *)
Definition build_engine (w : World) : Engine :=
  if negb (path_exists w DB_PATH) then (None, None)
  else
    let retriever := {| search_k := 4 |} in
    let llm := {| model := "gemini-1.5-pro";
                  convert_system_message_to_human := true |} in
    (Some retriever, Some llm).

(** [get_engine()] under [@st.cache_resource]: the body runs on the first
    call of the process, later calls return the memoised pair. *)
Definition get_engine (w : World) : M Engine :=
  c <- get_cache ;;
  match c with
  | Some e => ret e
  | None =>
      let e := build_engine w in
      put_cache e ;; ret e
  end.

(** [if st.button(label): st.session_state.prompt_input = query]. *)
Definition shortcut (i : Input) (label query : string) : M unit :=
  emit (EButton label) ;;
  if clicked i label then
    s <- get_session ;;
    put_session {| messages := messages s; prompt_input := Some query |}
  else ret tt.

Fixpoint shortcuts (i : Input) (catalog : list (string * string)) : M unit :=
  match catalog with
  | [] => ret tt
  | (label, query) :: rest => shortcut i label query ;; shortcuts i rest
  end.

(** [with st.expander(title, expanded=...):] followed by its buttons. *)
Definition expander (i : Input) (title : string) (expanded : bool)
    (catalog : list (string * string)) : M unit :=
  emit (EExpander title expanded) ;; shortcuts i catalog.

Definition PANDAVAS : list (string * string) :=
  [ ("Yudhishthira (Dharma)",
     "Tell me about Yudhishthira's adherence to Truth and the game of dice.");
    ("Bhima (Strength)",
     "Describe Bhima's immense strength and his vows.");
    ("Arjuna (Warrior)",
     "Describe Arjuna's skills, the Gandiva bow, and his bond with Krishna.");
    ("Nakula & Sahadeva",
     "What were the special skills and roles of Nakula and Sahadeva?");
    ("Draupadi (Panchali)",
     "Tell me about Draupadi's birth from fire and her resilience.") ].

Definition KAURAVAS : list (string * string) :=
  [ ("Duryodhana (King)",
     "Explain Duryodhana's motivations, his jealousy, and his friendship with Karna.");
    ("Karna (Tragic Hero)",
     "Tell me about Karna's tragic life, his charity (Daan), and his armor (Kavach).");
    ("Shakuni (Planner)",
     "What was Shakuni's role in the game of dice and influencing Duryodhana?");
    ("Dushasana",
     "What was Dushasana's role in the court and his fate in the war?") ].

Definition ELDERS : list (string * string) :=
  [ ("Krishna (Divine)",
     "Describe the role of Krishna as the charioteer and his divinity.");
    ("Bhishma (Grandsire)",
     "What was Bhishma's vow of celibacy and his role as the commander?");
    ("Guru Drona",
     "Tell me about Dronacharya as the teacher of both clans and his death.") ].

(** Section 4 of the script. *)
Definition sidebar (i : Input) : M unit :=
  emit (EMarkdown "## 📜 Chronicles") ;;
  emit (EMarkdown "Select a path:") ;;
  emit (EMarkdown "---") ;;
  expander i "⚜️ The Pandavas" true PANDAVAS ;;
  expander i "🐍 The Kauravas" false KAURAVAS ;;
  expander i "👴 Elders & Divine" false ELDERS ;;
  emit (EMarkdown "---") ;;
  emit (EInfo "💡 **Tip:** Type in English or Hinglish!").

(** [if not retriever: st.error(...); st.stop()]. *)
Definition require_retriever (retriever : option Retriever) : M unit :=
  match retriever with
  | Some _ => ret tt
  | None =>
      emit (EError MISSING_DB) ;;
      st_stop
  end.

(** [# Initialize State]. *)
Definition initialize_state : M unit :=
  s <- get_session ;;
  match messages s with
  | None =>
      put_session {| messages := Some ([] ++ [AIMessage GREETING]);
                     prompt_input := prompt_input s |}
  | Some _ => ret tt
  end.

(** [# Handle Sidebar Clicks]: yields the script variable [user_input]. *)
Definition handle_sidebar_clicks : M (option string) :=
  s <- get_session ;;
  if Py.truthy_opt (prompt_input s) then
    put_session {| messages := messages s; prompt_input := None |} ;;
    ret (prompt_input s)
  else ret None.

(** [# Display History]. *)
Definition display_message (msg : Message) : M unit :=
  match msg with
  | HumanMessage c => emit (EChatMessage "user") ;; emit (EWrite c)
  | AIMessage c => emit (EChatMessage "assistant") ;; emit (EWrite c)
  | SystemMessage _ => ret tt
  end.

Fixpoint display_all (msgs : list Message) : M unit :=
  match msgs with
  | [] => ret tt
  | msg :: rest => display_message msg ;; display_all rest
  end.

(** The loop iterates over [st.session_state.messages]; on an absent key
    the attribute access raises. *)
Definition display_history : M unit :=
  s <- get_session ;;
  match messages s with
  | Some msgs => display_all msgs
  | None => raise
  end.

(** [st.session_state.messages.append(msg)]. *)
Definition append_message (msg : Message) : M unit :=
  s <- get_session ;;
  match messages s with
  | Some msgs =>
      put_session {| messages := Some (msgs ++ [msg]);
                     prompt_input := prompt_input s |}
  | None => raise
  end.

(** [retriever.invoke(query)]. *)
Definition retriever_invoke (w : World) (retriever : option Retriever)
    (query : string) : M (list Document) :=
  match retriever with
  | None => raise
  | Some rt =>
      emit (ERetrieve query (search_k rt)) ;;
      match similarity_search w query (search_k rt) with
      | Some docs => ret docs
      | None => raise
      end
  end.

(** [llm.invoke(messages).content]. *)
Definition llm_invoke (w : World) (llm : option ChatModel)
    (request : list Message) : M string :=
  match llm with
  | None => raise
  | Some _ =>
      emit (EGenerate request) ;;
      match generate w request with
      | Some reply => ret reply
      | None => raise
      end
  end.

Definition PERSONA : string :=
  "You are Sanjaya, the wise narrator of the Mahabharata. ".
Definition RULE1 : string :=
  "1. LANGUAGE: Match the user's language (English, Hindi, or Hinglish).".
Definition RULE2 : string :=
  "2. SCRIPT: If user types in Latin script (e.g. 'Karna kaun tha'), use Latin script (Hinglish). Do NOT use Devanagari unless user does.".
Definition RULE3 : string :=
  "3. TONE: Respectful, epic, like a Rishi.".
Definition RULE4 : string :=
  "4. CONTENT: Answer strictly based on context.".

(** The parenthesised expression bound to [system_prompt]: adjacent
    literals are glued first, then the two [+] apply left to right. *)
Definition system_prompt (context_text : string) : string :=
  (((PERSONA ++ "CONTEXT:" ++ Py.nl) ++ context_text)
   ++ (Py.nl ++ Py.nl ++ "RULES:" ++ RULE1 ++ RULE2 ++ RULE3 ++ RULE4))%string.

(** The block guarded by [if final_query:]. *)
Definition respond (w : World) (retriever : option Retriever)
    (llm : option ChatModel) (user_input : option string)
    (final_query : string) : M unit :=
  (if negb (Py.truthy_opt user_input) then
     emit (EChatMessage "user") ;; emit (EWrite final_query)
   else ret tt) ;;
  append_message (HumanMessage final_query) ;;
  emit (EChatMessage "assistant") ;;
  emit (ESpinner "Meditating on the scriptures...") ;;
  docs <- retriever_invoke w retriever final_query ;;
  let context_text := Py.join (Py.nl ++ Py.nl)%string (map page_content docs) in
  s <- get_session ;;
  match messages s with
  | None => raise
  | Some history =>
      let request := [SystemMessage (system_prompt context_text)] ++ history in
      reply <- llm_invoke w llm request ;;
      emit (EMarkdown reply) ;;
      append_message (AIMessage reply)
  end.

(** [final_query = user_input if user_input else chat_input_val]. *)
Definition final_query_of (user_input chat_input_val : option string)
    : option string :=
  if Py.truthy_opt user_input then user_input else chat_input_val.

(** [# Input Logic] and everything below it. *)
Definition input_logic (w : World) (i : Input) (retriever : option Retriever)
    (llm : option ChatModel) (user_input : option string) : M unit :=
  emit (EChatInput "Ask about Dharma, Karma, or the War...") ;;
  match final_query_of user_input (chat_input_val i) with
  | Some q => if Py.truthy q then respond w retriever llm user_input q else ret tt
  | None => ret tt
  end.

(** One execution of [app.py]. *)
Definition app (w : World) (i : Input) : M unit :=
  emit (EPageConfig "Mahabharat GPT") ;;
  emit EStyle ;;
  logic_setup w ;;
  engine <- get_engine w ;;
  let retriever := fst engine in
  let llm := snd engine in
  sidebar i ;;
  emit EHeader ;;
  require_retriever retriever ;;
  initialize_state ;;
  user_input <- handle_sidebar_clicks ;;
  display_history ;;
  input_logic w i retriever llm user_input.

(** A render starts with an empty log. *)
Definition render (w : World) (i : Input) (p : Process) (s : SessionState)
    : Res unit :=
  app w i {| proc := p; session := s; trace := [] |}.

(** Successive renders of one session in one process: state left behind by
    a run, however it ended, is what the next run starts from. *)
Fixpoint renders (steps : list (World * Input)) (p : Process)
    (s : SessionState) : list (Res unit) :=
  match steps with
  | [] => []
  | (w, i) :: rest =>
      let x := render w i p s in
      x :: renders rest (proc (run_of x)) (session (run_of x))
  end.

(** ** Values of the script's variables, as functions of a run's inputs *)

(** [st.session_state.prompt_input] once the buttons of [catalog] have been
    evaluated in order: a pressed button overwrites what was there. *)
Fixpoint pressed_query (i : Input) (catalog : list (string * string))
    (pending : option string) : option string :=
  match catalog with
  | [] => pending
  | (label, query) :: rest =>
      pressed_query i rest (if clicked i label then Some query else pending)
  end.

Definition CATALOG : list (string * string) := PANDAVAS ++ KAURAVAS ++ ELDERS.

(** The pending prompt when the sidebar block is left. *)
Definition pending_of (i : Input) (s : SessionState) : option string :=
  pressed_query i CATALOG (prompt_input s).

(** The variable [user_input]. *)
Definition user_input_of (i : Input) (s : SessionState) : option string :=
  if Py.truthy_opt (pending_of i s) then pending_of i s else None.

(** [prompt_input] after [# Handle Sidebar Clicks]. *)
Definition pending_left (i : Input) (s : SessionState) : option string :=
  if Py.truthy_opt (pending_of i s) then None else pending_of i s.

(** The variable [final_query], when it is truthy. *)
Definition query_of (i : Input) (s : SessionState) : option string :=
  match final_query_of (user_input_of i s) (chat_input_val i) with
  | Some q => if Py.truthy q then Some q else None
  | None => None
  end.

(** [st.session_state.messages] after [# Initialize State]. *)
Definition history_of (s : SessionState) : list Message :=
  match messages s with
  | None => [AIMessage GREETING]
  | Some msgs => msgs
  end.

(** The pair [get_engine()] returns in a run. *)
Definition engine_of (w : World) (p : Process) : Engine :=
  match engine_cache p with
  | Some e => e
  | None => build_engine w
  end.

(** Calls to the external services recorded in a log. *)
Definition is_call (e : Event) : bool :=
  match e with
  | ERetrieve _ _ | EGenerate _ => true
  | _ => false
  end.

Definition calls (t : list Event) : list Event := filter is_call t.

(** Page elements of the interface proper: sidebar, header, chat surface. *)
Definition is_interface (e : Event) : bool :=
  match e with
  | EMarkdown _ | EExpander _ _ | EButton _ | EInfo _ | EHeader
  | EChatMessage _ | EWrite _ | ESpinner _ | EChatInput _ => true
  | _ => false
  end.

(** The stored history holds user and assistant turns only. *)
Definition only_turns (s : SessionState) : Prop :=
  match messages s with
  | None => True
  | Some history => forallb (fun m => negb (is_system m)) history = true
  end.

(** The stored history, once it exists, starts with [history]. *)
Definition extends (history : list Message) (s : SessionState) : Prop :=
  exists tail, messages s = Some (history ++ tail).

(** No shortcut query is waiting in the session store. *)
Definition nothing_pending (s : SessionState) : Prop := prompt_input s = None.

(** A process state the script itself can have produced. *)
Definition cache_built (p : Process) : Prop :=
  match engine_cache p with
  | None => True
  | Some e => exists w0, e = build_engine w0
  end.

(** The input of a run in which exactly the button [label] was pressed. *)
Definition click (label : string) (typed : option string) : Input :=
  {| clicked := String.eqb label; chat_input_val := typed |}.

(** The input of a run in which no button was pressed. *)
Definition no_click (typed : option string) : Input :=
  {| clicked := fun _ => false; chat_input_val := typed |}.

(** ** Logs of the script's blocks *)

Definition button_events (catalog : list (string * string)) : list Event :=
  map (fun lq => EButton (fst lq)) catalog.

Definition sidebar_events : list Event :=
  [EMarkdown "## 📜 Chronicles"; EMarkdown "Select a path:"; EMarkdown "---"]
  ++ EExpander "⚜️ The Pandavas" true :: button_events PANDAVAS
  ++ EExpander "🐍 The Kauravas" false :: button_events KAURAVAS
  ++ EExpander "👴 Elders & Divine" false :: button_events ELDERS
  ++ [EMarkdown "---"; EInfo "💡 **Tip:** Type in English or Hinglish!"].

Definition message_events (msg : Message) : list Event :=
  match msg with
  | HumanMessage c => [EChatMessage "user"; EWrite c]
  | AIMessage c => [EChatMessage "assistant"; EWrite c]
  | SystemMessage _ => []
  end.

Definition history_events (msgs : list Message) : list Event :=
  flat_map message_events msgs.

(** What a run logs before it reaches the retriever check. *)
Definition opening_events (v : string) : list Event :=
  [EPageConfig "Mahabharat GPT"; EStyle; EEnviron GOOGLE_API_KEY v]
  ++ sidebar_events ++ [EHeader].

(** What a run logs before it reaches [# Input Logic]. *)
Definition front_events (v : string) (s : SessionState) : list Event :=
  opening_events v ++ history_events (history_of s).

(** What the guarded block logs up to and including the retriever call. *)
Definition retrieval_events (user_input : option string) (q : string) (k : nat)
    : list Event :=
  (if negb (Py.truthy_opt user_input) then [EChatMessage "user"; EWrite q] else [])
  ++ [EChatMessage "assistant"; ESpinner "Meditating on the scriptures...";
      ERetrieve q k].

(** The context block built from the passages the retriever returned. *)
Definition context_of (docs : list Document) : string :=
  Py.join (Py.nl ++ Py.nl)%string (map page_content docs).

(** The list handed to [llm.invoke]. *)
Definition request_of (docs : list Document) (history : list Message)
    (q : string) : list Message :=
  [SystemMessage (system_prompt (context_of docs))] ++ history ++ [HumanMessage q].

(** A computation preserves a property of the session store when the
    property holds of the store it leaves, however it ends. *)
Definition preserves (I : SessionState -> Prop) {A} (m : M A) : Prop :=
  forall r, I (session r) -> I (session (run_of (m r))).

(** ** Concrete worlds used to exercise the statements *)

Definition demo_docs : list Document :=
  [ {| page_content := "Karna was the son of Surya." |};
    {| page_content := "He was raised by Adhiratha." |} ].

Definition demo_world : World :=
  {| secrets := fun _ => Some "k";
     path_exists := fun _ => true;
     similarity_search := fun _ _ => Some demo_docs;
     generate := fun _ => Some "Karna Surya ka putra tha." |}.

Definition no_key_world : World :=
  {| secrets := fun _ => None;
     path_exists := fun _ => true;
     similarity_search := fun _ _ => Some demo_docs;
     generate := fun _ => Some "Karna Surya ka putra tha." |}.

Definition no_db_world : World :=
  {| secrets := fun _ => Some "k";
     path_exists := fun _ => false;
     similarity_search := fun _ _ => Some demo_docs;
     generate := fun _ => Some "Karna Surya ka putra tha." |}.

Definition fresh_process : Process := {| engine_cache := None |}.

Definition fresh_session : SessionState :=
  {| messages := None; prompt_input := None |}.

Definition greeted_session : SessionState :=
  {| messages := Some [AIMessage GREETING]; prompt_input := None |}.

(** A world whose generator raises. *)
Definition failing_generator_world : World :=
  {| secrets := fun _ => Some "k";
     path_exists := fun _ => true;
     similarity_search := fun _ _ => Some demo_docs;
     generate := fun _ => None |}.

(** A world whose retriever raises. *)
Definition failing_retriever_world : World :=
  {| secrets := fun _ => Some "k";
     path_exists := fun _ => true;
     similarity_search := fun _ _ => None;
     generate := fun _ => Some "Karna Surya ka putra tha." |}.

(** A world whose index holds nothing relevant. *)
Definition empty_index_world : World :=
  {| secrets := fun _ => Some "k";
     path_exists := fun _ => true;
     similarity_search := fun _ _ => Some [];
     generate := fun _ => Some "Karna Surya ka putra tha." |}.

(** A run ended by an exception nobody caught. *)
Definition raised {A} (x : Res A) : bool :=
  match x with
  | Halt Raised _ => true
  | _ => false
  end.

(** User turns each followed by an assistant turn. *)
Fixpoint turn_pairs (msgs : list Message) : bool :=
  match msgs with
  | [] => true
  | HumanMessage _ :: AIMessage _ :: rest => turn_pairs rest
  | _ => false
  end.

(** A dialogue opened by the assistant and alternating from there on. *)
Definition alternating (msgs : list Message) : bool :=
  match msgs with
  | AIMessage _ :: rest => turn_pairs rest
  | _ => false
  end.

Definition alternating_session (s : SessionState) : Prop :=
  match messages s with
  | None => True
  | Some history => alternating history = true
  end.

(** Elements of the chat surface. *)
Definition is_chat (e : Event) : bool :=
  match e with
  | EChatMessage _ | EWrite _ | ESpinner _ | EChatInput _ => true
  | _ => false
  end.

(** The number of turns stored, none when the key is absent. *)
Definition turns (s : SessionState) : nat :=
  match messages s with
  | None => 0
  | Some history => length history
  end.

(** User bubbles opened in a log. *)
Definition user_bubbles (t : list Event) : nat :=
  length (filter (fun e => match e with
                           | EChatMessage role => String.eqb role "user"
                           | _ => false
                           end) t).

(** User turns in a history. *)
Definition user_turns (msgs : list Message) : nat :=
  length (filter (fun m => match m with
                           | HumanMessage _ => true
                           | _ => false
                           end) msgs).

(** The context block in the specification's words: the passage texts in
    the order the retriever returned them, two newlines between one passage
    and the next, nothing before the first or after the last. *)
Definition context_block_spec (docs : list Document) : string :=
  match docs with
  | [] => ""
  | first :: others =>
      fold_left (fun block d => (block ++ Py.nl ++ Py.nl ++ page_content d)%string)
                others (page_content first)
  end.

(** ** Running the blocks *)

Section Blocks.

Variable w : World.
Variable i : Input.

Lemma bind_emit {B} (e : Event) (k : unit -> M B) p s t :
  bind (emit e) k {| proc := p; session := s; trace := t |}
  = k tt {| proc := p; session := s; trace := t ++ [e] |}.
Proof. reflexivity. Qed.

Lemma shortcuts_run catalog : forall p m pi t,
  shortcuts i catalog
    {| proc := p; session := {| messages := m; prompt_input := pi |}; trace := t |}
  = Ret tt {| proc := p;
              session := {| messages := m;
                            prompt_input := pressed_query i catalog pi |};
              trace := t ++ button_events catalog |}.
Proof.
  induction catalog as [| [label query] rest IH]; intros p m pi t.
  - cbn. now rewrite app_nil_r.
  - cbn [shortcuts pressed_query button_events map fst].
    unfold bind at 1. unfold shortcut, bind, emit. cbn.
    destruct (clicked i label); cbn; rewrite IH;
      unfold button_events; now rewrite <- app_assoc.
Qed.

Lemma expander_run title expanded catalog p m pi t :
  expander i title expanded catalog
    {| proc := p; session := {| messages := m; prompt_input := pi |}; trace := t |}
  = Ret tt {| proc := p;
              session := {| messages := m;
                            prompt_input := pressed_query i catalog pi |};
              trace := t ++ EExpander title expanded :: button_events catalog |}.
Proof.
  unfold expander. rewrite bind_emit, shortcuts_run.
  now rewrite <- app_assoc.
Qed.

Lemma pressed_query_app c1 : forall c2 pi,
  pressed_query i (c1 ++ c2) pi = pressed_query i c2 (pressed_query i c1 pi).
Proof.
  induction c1 as [| [label query] rest IH]; intros c2 pi; cbn; [reflexivity |].
  apply IH.
Qed.

Lemma sidebar_run p m pi t :
  sidebar i
    {| proc := p; session := {| messages := m; prompt_input := pi |}; trace := t |}
  = Ret tt {| proc := p;
              session := {| messages := m;
                            prompt_input := pressed_query i CATALOG pi |};
              trace := t ++ sidebar_events |}.
Proof.
  unfold sidebar. rewrite !bind_emit.
  unfold bind at 1. rewrite expander_run.
  unfold bind at 1. rewrite expander_run.
  unfold bind at 1. rewrite expander_run.
  rewrite bind_emit. unfold emit. cbn [proc session trace].
  unfold CATALOG. rewrite !pressed_query_app.
  f_equal. f_equal. unfold sidebar_events.
  repeat (rewrite <- app_assoc; cbn [app]). reflexivity.
Qed.

Lemma display_all_run msgs : forall p s t,
  display_all msgs {| proc := p; session := s; trace := t |}
  = Ret tt {| proc := p; session := s; trace := t ++ history_events msgs |}.
Proof.
  induction msgs as [| msg rest IH]; intros p s t.
  - cbn. now rewrite app_nil_r.
  - cbn [display_all history_events flat_map]. unfold bind at 1.
    destruct msg as [c | c | c]; cbn; rewrite IH; unfold history_events;
      rewrite <- ?app_assoc; reflexivity.
Qed.

End Blocks.

(** ** Closed forms of a render *)

Section Render.

Variable w : World.
Variable i : Input.

Lemma render_no_key p s :
  secrets w GOOGLE_API_KEY = None ->
  render w i p s
  = Halt Stopped {| proc := p; session := s;
                    trace := [EPageConfig "Mahabharat GPT"; EStyle;
                              EError MISSING_KEY] |}.
Proof.
  intros Hkey. unfold render, app. rewrite !bind_emit.
  unfold bind at 1. unfold logic_setup. rewrite Hkey.
  reflexivity.
Qed.

Lemma get_engine_run p s t :
  get_engine w {| proc := p; session := s; trace := t |}
  = Ret (engine_of w p)
        {| proc := {| engine_cache := Some (engine_of w p) |};
           session := s; trace := t |}.
Proof.
  destruct p as [[e |]]; reflexivity.
Qed.

Lemma render_no_retriever p s v :
  secrets w GOOGLE_API_KEY = Some v ->
  fst (engine_of w p) = None ->
  render w i p s
  = Halt Stopped
      {| proc := {| engine_cache := Some (engine_of w p) |};
         session := {| messages := messages s; prompt_input := pending_of i s |};
         trace := opening_events v ++ [EError MISSING_DB] |}.
Proof.
  intros Hkey Hrt. unfold render, app. rewrite !bind_emit.
  unfold bind at 1. unfold logic_setup. rewrite Hkey. unfold emit at 1.
  cbn [proc session trace].
  unfold bind at 1. rewrite get_engine_run.
  destruct s as [m pi].
  unfold bind at 1. rewrite sidebar_run. rewrite bind_emit.
  unfold bind at 1. rewrite Hrt. unfold require_retriever.
  rewrite bind_emit. unfold st_stop, pending_of, opening_events.
  cbn [prompt_input messages app]. rewrite <- !app_assoc. reflexivity.
Qed.

Lemma render_front p s v rt :
  secrets w GOOGLE_API_KEY = Some v ->
  fst (engine_of w p) = Some rt ->
  render w i p s
  = input_logic w i (Some rt) (snd (engine_of w p)) (user_input_of i s)
      {| proc := {| engine_cache := Some (engine_of w p) |};
         session := {| messages := Some (history_of s);
                       prompt_input := pending_left i s |};
         trace := front_events v s |}.
Proof.
  intros Hkey Hrt. unfold render, app. rewrite !bind_emit.
  unfold bind at 1. unfold logic_setup. rewrite Hkey. unfold emit at 1.
  cbn [proc session trace].
  unfold bind at 1. rewrite get_engine_run.
  destruct s as [m pi].
  unfold bind at 1. rewrite sidebar_run. rewrite bind_emit.
  unfold bind at 1. rewrite Hrt. unfold require_retriever, ret.
  unfold user_input_of, pending_left, pending_of, front_events, history_of.
  cbn [prompt_input messages].
  set (pend := pressed_query i CATALOG pi).
  assert (Hopen : ([] ++ [EPageConfig "Mahabharat GPT"] ++ [EStyle]
                   ++ [EEnviron GOOGLE_API_KEY v]) ++ sidebar_events ++ [EHeader]
                  = opening_events v)
    by (unfold opening_events; cbn [app]; reflexivity).
  destruct m as [msgs |].
  - unfold bind at 1. unfold initialize_state, bind, get_session, ret.
    cbn [session messages prompt_input].
    unfold handle_sidebar_clicks, bind, get_session, put_session, ret.
    cbn [session messages prompt_input proc trace].
    destruct (Py.truthy_opt pend);
      unfold display_history, bind, get_session;
      cbn [session messages prompt_input proc trace];
      rewrite display_all_run; rewrite <- Hopen, <- !app_assoc; reflexivity.
  - unfold bind at 1. unfold initialize_state, bind, get_session, put_session, ret.
    cbn [session messages prompt_input proc trace app].
    unfold handle_sidebar_clicks, bind, get_session, put_session, ret.
    cbn [session messages prompt_input proc trace].
    destruct (Py.truthy_opt pend);
      unfold display_history, bind, get_session;
      cbn [session messages prompt_input proc trace];
      rewrite display_all_run; rewrite <- Hopen, <- !app_assoc; reflexivity.
Qed.

End Render.

Section Respond.

Variable w : World.

(** The guarded block, for every way the two services can answer. *)
Lemma respond_run rt llm user_input q p history pi t :
  respond w (Some rt) llm user_input q
    {| proc := p;
       session := {| messages := Some history; prompt_input := pi |};
       trace := t |}
  = let t1 := t ++ retrieval_events user_input q (search_k rt) in
    let asked := {| messages := Some (history ++ [HumanMessage q]);
                    prompt_input := pi |} in
    match similarity_search w q (search_k rt) with
    | None => Halt Raised {| proc := p; session := asked; trace := t1 |}
    | Some docs =>
        match llm with
        | None => Halt Raised {| proc := p; session := asked; trace := t1 |}
        | Some _ =>
            let request := request_of docs history q in
            match generate w request with
            | None =>
                Halt Raised {| proc := p; session := asked;
                               trace := t1 ++ [EGenerate request] |}
            | Some reply =>
                Ret tt {| proc := p;
                          session :=
                            {| messages :=
                                 Some (history ++ [HumanMessage q; AIMessage reply]);
                               prompt_input := pi |};
                          trace := t1 ++ [EGenerate request; EMarkdown reply] |}
            end
        end
    end.
Proof.
  unfold respond, retrieval_events, request_of, context_of.
  unfold bind at 1.
  assert (Hecho :
    (if negb (Py.truthy_opt user_input)
     then emit (EChatMessage "user");; emit (EWrite q) else ret tt)
      {| proc := p;
         session := {| messages := Some history; prompt_input := pi |};
         trace := t |}
    = Ret tt {| proc := p;
                session := {| messages := Some history; prompt_input := pi |};
                trace := t ++ (if negb (Py.truthy_opt user_input)
                               then [EChatMessage "user"; EWrite q] else []) |}).
  { destruct (negb (Py.truthy_opt user_input)).
    - rewrite bind_emit. unfold emit. cbn [proc session trace].
      now rewrite <- app_assoc.
    - unfold ret. now rewrite app_nil_r. }
  rewrite Hecho. clear Hecho.
  unfold bind at 1. unfold append_message at 1.
  unfold bind at 1. unfold get_session at 1. cbn [session messages prompt_input].
  unfold put_session at 1. cbn [proc session trace].
  rewrite !bind_emit.
  unfold bind at 1. unfold retriever_invoke. rewrite bind_emit.
  cbn zeta.
  rewrite <- !app_assoc. cbn [app].
  destruct (similarity_search w q (search_k rt)) as [docs |]; [| reflexivity].
  unfold ret at 1. unfold bind at 1. unfold get_session at 1.
  cbn [session messages prompt_input].
  destruct llm as [lm |]; [| reflexivity].
  unfold bind at 1. unfold llm_invoke. rewrite bind_emit.
  destruct (generate w _) as [reply |]; [| reflexivity].
  unfold ret at 1. rewrite bind_emit.
  unfold append_message, bind, get_session, put_session.
  cbn [proc session trace messages prompt_input].
  rewrite <- !app_assoc. reflexivity.
Qed.

(** [# Input Logic] when there is nothing to handle. *)
Lemma input_logic_idle i retriever llm user_input r :
  match final_query_of user_input (chat_input_val i) with
  | Some q => Py.truthy q
  | None => false
  end = false ->
  input_logic w i retriever llm user_input r
  = Ret tt {| proc := proc r; session := session r;
              trace := trace r ++ [EChatInput "Ask about Dharma, Karma, or the War..."] |}.
Proof.
  intros Hq. unfold input_logic. destruct r as [p s t]. rewrite bind_emit.
  destruct (final_query_of user_input (chat_input_val i)) as [q |]; [| reflexivity].
  rewrite Hq. reflexivity.
Qed.

(** [# Input Logic] when [final_query] is the truthy string [q]. *)
Lemma input_logic_query i retriever llm user_input q p s t :
  final_query_of user_input (chat_input_val i) = Some q ->
  Py.truthy q = true ->
  input_logic w i retriever llm user_input {| proc := p; session := s; trace := t |}
  = respond w retriever llm user_input q
      {| proc := p; session := s;
         trace := t ++ [EChatInput "Ask about Dharma, Karma, or the War..."] |}.
Proof.
  intros Hq Ht. unfold input_logic. rewrite bind_emit, Hq, Ht. reflexivity.
Qed.

End Respond.

(** ** Session invariants

    A property of the session store that survives the four ways the script
    writes to it survives every run, however the run ends. *)

Section Invariant.

Variable I : SessionState -> Prop.

Hypothesis I_prompt : forall m pi pi',
  I {| messages := m; prompt_input := pi |} ->
  I {| messages := m; prompt_input := pi' |}.
Hypothesis I_greeting : forall pi,
  I {| messages := None; prompt_input := pi |} ->
  I {| messages := Some [AIMessage GREETING]; prompt_input := pi |}.
Hypothesis I_human : forall history c pi,
  I {| messages := Some history; prompt_input := pi |} ->
  I {| messages := Some (history ++ [HumanMessage c]); prompt_input := pi |}.
Hypothesis I_ai : forall history c pi,
  I {| messages := Some history; prompt_input := pi |} ->
  I {| messages := Some (history ++ [AIMessage c]); prompt_input := pi |}.

Local Abbreviation keeps := (preserves I).

Lemma keeps_bind {A B} (m : M A) (k : A -> M B) :
  keeps m -> (forall a, keeps (k a)) -> keeps (bind m k).
Proof.
  intros Hm Hk r Hr. unfold bind. specialize (Hm r Hr).
  destruct (m r) as [a r' | o r']; cbn in *; [now apply Hk | exact Hm].
Qed.

Lemma keeps_ret {A} (a : A) : keeps (ret a).
Proof. intros r Hr. exact Hr. Qed.

Lemma keeps_emit e : keeps (emit e).
Proof. intros r Hr. exact Hr. Qed.

Lemma keeps_stop {A} : keeps (@st_stop A).
Proof. intros r Hr. exact Hr. Qed.

Lemma keeps_raise {A} : keeps (@raise A).
Proof. intros r Hr. exact Hr. Qed.

Lemma keeps_append_human c : keeps (append_message (HumanMessage c)).
Proof.
  intros [p [[history |] pi] t] Hr; cbn in *; [now apply I_human | exact Hr].
Qed.

Lemma keeps_append_ai c : keeps (append_message (AIMessage c)).
Proof.
  intros [p [[history |] pi] t] Hr; cbn in *; [now apply I_ai | exact Hr].
Qed.

Lemma keeps_retriever_invoke w retriever q : keeps (retriever_invoke w retriever q).
Proof.
  unfold retriever_invoke. destruct retriever as [rt |]; [| apply keeps_raise].
  apply keeps_bind; [apply keeps_emit | intros _].
  destruct (similarity_search w q (search_k rt)); [apply keeps_ret | apply keeps_raise].
Qed.

Lemma keeps_llm_invoke w llm request : keeps (llm_invoke w llm request).
Proof.
  unfold llm_invoke. destruct llm as [lm |]; [| apply keeps_raise].
  apply keeps_bind; [apply keeps_emit | intros _].
  destruct (generate w request); [apply keeps_ret | apply keeps_raise].
Qed.

Lemma keeps_respond w retriever llm user_input q :
  keeps (respond w retriever llm user_input q).
Proof.
  unfold respond.
  apply keeps_bind; [| intros _].
  { destruct (negb (Py.truthy_opt user_input)); [| apply keeps_ret].
    apply keeps_bind; [apply keeps_emit | intros _; apply keeps_emit]. }
  apply keeps_bind; [apply keeps_append_human | intros _].
  apply keeps_bind; [apply keeps_emit | intros _].
  apply keeps_bind; [apply keeps_emit | intros _].
  apply keeps_bind; [apply keeps_retriever_invoke | intros docs].
  apply keeps_bind; [intros r Hr; exact Hr | intros s].
  destruct (messages s) as [history |]; [| apply keeps_raise].
  apply keeps_bind; [apply keeps_llm_invoke | intros reply].
  apply keeps_bind; [apply keeps_emit | intros _; apply keeps_append_ai].
Qed.

Lemma keeps_input_logic w i retriever llm user_input :
  keeps (input_logic w i retriever llm user_input).
Proof.
  unfold input_logic. apply keeps_bind; [apply keeps_emit | intros _].
  destruct (final_query_of user_input (chat_input_val i)) as [q |];
    [| apply keeps_ret].
  destruct (Py.truthy q); [apply keeps_respond | apply keeps_ret].
Qed.

Lemma keeps_shortcuts i catalog : keeps (shortcuts i catalog).
Proof.
  induction catalog as [| [label query] rest IH]; [apply keeps_ret |].
  cbn [shortcuts]. apply keeps_bind; [| intros _; exact IH].
  unfold shortcut. apply keeps_bind; [apply keeps_emit | intros _].
  destruct (clicked i label); [| apply keeps_ret].
  intros [p [m pi] t] Hr. cbn in *. now apply I_prompt with (pi := pi).
Qed.

Lemma keeps_expander i title expanded catalog :
  keeps (expander i title expanded catalog).
Proof.
  unfold expander.
  apply keeps_bind; [apply keeps_emit | intros _; apply keeps_shortcuts].
Qed.

Lemma keeps_sidebar i : keeps (sidebar i).
Proof.
  unfold sidebar.
  repeat (apply keeps_bind; [first [apply keeps_emit | apply keeps_expander] | intros _]).
  apply keeps_emit.
Qed.

Lemma keeps_display_all msgs : keeps (display_all msgs).
Proof.
  induction msgs as [| msg rest IH]; [apply keeps_ret |].
  cbn [display_all]. apply keeps_bind; [| intros _; exact IH].
  destruct msg; cbn [display_message]; try apply keeps_ret;
    (apply keeps_bind; [apply keeps_emit | intros _; apply keeps_emit]).
Qed.

Lemma keeps_app w i : keeps (app w i).
Proof.
  unfold app.
  apply keeps_bind; [apply keeps_emit | intros _].
  apply keeps_bind; [apply keeps_emit | intros _].
  apply keeps_bind; [| intros _].
  { unfold logic_setup. destruct (secrets w GOOGLE_API_KEY); [apply keeps_emit |].
    apply keeps_bind; [apply keeps_emit | intros _; apply keeps_stop]. }
  apply keeps_bind; [| intros engine].
  { intros [[[e |]] s t] Hr; exact Hr. }
  apply keeps_bind; [apply keeps_sidebar | intros _].
  apply keeps_bind; [apply keeps_emit | intros _].
  apply keeps_bind; [| intros _].
  { unfold require_retriever. destruct (fst engine); [apply keeps_ret |].
    apply keeps_bind; [apply keeps_emit | intros _; apply keeps_stop]. }
  apply keeps_bind; [| intros _].
  { intros [p [[history |] pi] t] Hr; cbn in *; [exact Hr | now apply I_greeting]. }
  apply keeps_bind; [| intros user_input].
  { intros [p [m pi] t] Hr. unfold handle_sidebar_clicks, bind, get_session.
    cbn [session prompt_input messages].
    destruct (Py.truthy_opt pi); cbn; [now apply I_prompt with (pi := pi) | exact Hr]. }
  apply keeps_bind; [| intros _; apply keeps_input_logic].
  intros [p [[history |] pi] t] Hr; [| exact Hr].
  now apply keeps_display_all.
Qed.

End Invariant.

(** ** Facts about logs and script variables *)

Lemma calls_app t1 t2 : calls (t1 ++ t2) = calls t1 ++ calls t2.
Proof. apply filter_app. Qed.

Lemma calls_history msgs : calls (history_events msgs) = [].
Proof.
  induction msgs as [| msg rest IH]; [reflexivity |].
  unfold history_events in *. cbn [flat_map]. rewrite calls_app, IH.
  destruct msg; reflexivity.
Qed.

Lemma calls_opening v : calls (opening_events v) = [].
Proof. reflexivity. Qed.

Lemma calls_front v s : calls (front_events v s) = [].
Proof.
  unfold front_events. now rewrite calls_app, calls_opening, calls_history.
Qed.

Lemma calls_retrieval user_input q k :
  calls (retrieval_events user_input q k) = [ERetrieve q k].
Proof.
  unfold retrieval_events. destruct (negb (Py.truthy_opt user_input)); reflexivity.
Qed.

Lemma query_of_some i s q :
  query_of i s = Some q ->
  final_query_of (user_input_of i s) (chat_input_val i) = Some q
  /\ Py.truthy q = true.
Proof.
  unfold query_of.
  destruct (final_query_of (user_input_of i s) (chat_input_val i)) as [q' |];
    [| discriminate].
  destruct (Py.truthy q') eqn:Hq; [| discriminate].
  intros [= <-]. now split.
Qed.

Lemma query_of_none i s :
  query_of i s = None ->
  match final_query_of (user_input_of i s) (chat_input_val i) with
  | Some q => Py.truthy q
  | None => false
  end = false.
Proof.
  unfold query_of.
  destruct (final_query_of (user_input_of i s) (chat_input_val i)) as [q |];
    [| reflexivity].
  destruct (Py.truthy q); [discriminate | reflexivity].
Qed.

Lemma truthy_nonempty q : Py.truthy q = true -> q <> "".
Proof. destruct q; [discriminate | intros _ H; discriminate H]. Qed.

(** A render with nothing to handle, closed form. *)
Lemma render_idle w i p s v rt :
  secrets w GOOGLE_API_KEY = Some v ->
  fst (engine_of w p) = Some rt ->
  query_of i s = None ->
  render w i p s
  = Ret tt {| proc := {| engine_cache := Some (engine_of w p) |};
              session := {| messages := Some (history_of s);
                            prompt_input := pending_left i s |};
              trace := front_events v s
                       ++ [EChatInput "Ask about Dharma, Karma, or the War..."] |}.
Proof.
  intros Hkey Hrt Hq.
  rewrite (render_front w i p s v rt Hkey Hrt).
  now rewrite (input_logic_idle w i _ _ _ _ (query_of_none i s Hq)).
Qed.

(** A render with a query to handle: the guarded block runs on the
    bootstrapped history, after the pending prompt has been consumed. *)
Lemma render_query w i p s v rt q :
  secrets w GOOGLE_API_KEY = Some v ->
  fst (engine_of w p) = Some rt ->
  query_of i s = Some q ->
  render w i p s
  = respond w (Some rt) (snd (engine_of w p)) (user_input_of i s) q
      {| proc := {| engine_cache := Some (engine_of w p) |};
         session := {| messages := Some (history_of s);
                       prompt_input := pending_left i s |};
         trace := front_events v s
                  ++ [EChatInput "Ask about Dharma, Karma, or the War..."] |}.
Proof.
  intros Hkey Hrt Hq. destruct (query_of_some i s q Hq) as [Hf Ht].
  rewrite (render_front w i p s v rt Hkey Hrt).
  now apply input_logic_query.
Qed.

(** ** Three invariants of the session store *)

Lemma forallb_snoc {A} (f : A -> bool) l x :
  forallb f (l ++ [x]) = forallb f l && f x.
Proof. rewrite forallb_app. cbn. now rewrite andb_true_r. Qed.

(** No run ever stores a system instruction. *)
Lemma app_keeps_only_turns w i : preserves only_turns (app w i).
Proof.
  apply keeps_app; unfold only_turns; cbn [messages].
  - intros m pi pi' H. exact H.
  - intros pi _. reflexivity.
  - intros history c pi H. now rewrite forallb_snoc, H.
  - intros history c pi H. now rewrite forallb_snoc, H.
Qed.

(** The guarded block only appends to the stored history. *)
Lemma input_logic_keeps_extends history w i retriever llm user_input :
  preserves (extends history) (input_logic w i retriever llm user_input).
Proof.
  apply keeps_input_logic; unfold extends; cbn [messages];
    intros h c pi [tail [= ->]]; eexists (tail ++ [_]); now rewrite <- app_assoc.
Qed.

(** The guarded block never writes the pending prompt. *)
Lemma input_logic_keeps_nothing_pending w i retriever llm user_input :
  preserves nothing_pending (input_logic w i retriever llm user_input).
Proof.
  apply keeps_input_logic; unfold nothing_pending; cbn [prompt_input]; auto.
Qed.

(** Every session reachable from a new one holds user and assistant turns
    only. *)
Lemma only_turns_reachable steps : forall p s,
  only_turns s ->
  Forall (fun x => only_turns (session (run_of x))) (renders steps p s).
Proof.
  induction steps as [| [w i] rest IH]; intros p s Hs; cbn [renders].
  - constructor.
  - assert (H : only_turns (session (run_of (render w i p s))))
      by (apply (app_keeps_only_turns w i); exact Hs).
    constructor; [exact H | now apply IH].
Qed.

(** ** Buttons *)

Lemma pressed_query_none i catalog : forall pending,
  (forall label, clicked i label = false) ->
  pressed_query i catalog pending = pending.
Proof.
  induction catalog as [| [label query] rest IH]; intros pending Hno;
    cbn [pressed_query]; [reflexivity |].
  rewrite Hno. now apply IH.
Qed.

Lemma pressed_query_from catalog i : forall pending,
  pressed_query i catalog pending = pending
  \/ exists q, In q (map snd catalog) /\ pressed_query i catalog pending = Some q.
Proof.
  induction catalog as [| [label query] rest IH]; intros pending;
    cbn [pressed_query map snd]; [now left |].
  destruct (IH (if clicked i label then Some query else pending))
    as [-> | [q [Hin ->]]].
  - destruct (clicked i label); [| now left].
    right. exists query. split; [now left | reflexivity].
  - right. exists q. split; [now right | reflexivity].
Qed.

Lemma pressed_query_clicked catalog i label query : forall pending,
  In (label, query) catalog ->
  clicked i label = true ->
  exists q, In q (map snd catalog) /\ pressed_query i catalog pending = Some q.
Proof.
  induction catalog as [| [l0 q0] rest IH]; intros pending Hin Hc; [destruct Hin |].
  cbn [pressed_query map snd]. destruct Hin as [[= -> ->] | Hin].
  - rewrite Hc. destruct (pressed_query_from rest i (Some query))
      as [-> | [q [Hq ->]]].
    + exists query. split; [now left | reflexivity].
    + exists q. split; [now right | reflexivity].
  - destruct (IH (if clicked i l0 then Some q0 else pending) Hin Hc)
      as [q [Hq ->]].
    exists q. split; [now right | reflexivity].
Qed.

(** Every canned question is a non-empty string. *)
Lemma catalog_queries_truthy q :
  In q (map snd CATALOG) -> Py.truthy q = true.
Proof.
  intros Hin. cbn in Hin.
  repeat (destruct Hin as [<- | Hin]; [reflexivity |]). destruct Hin.
Qed.

(** A run without button presses leaves a session with nothing pending in
    that state. *)
Lemma no_click_keeps_nothing_pending w typed p s :
  nothing_pending s ->
  nothing_pending (session (run_of (render w (no_click typed) p s))).
Proof.
  unfold nothing_pending. intros Hs.
  assert (Hpend : pending_of (no_click typed) s = None)
    by (unfold pending_of; rewrite pressed_query_none; [exact Hs | reflexivity]).
  destruct (secrets w GOOGLE_API_KEY) as [v |] eqn:Hkey.
  - destruct (fst (engine_of w p)) as [rt |] eqn:Hrt.
    + rewrite (render_front w _ p s v rt Hkey Hrt).
      apply input_logic_keeps_nothing_pending.
      unfold nothing_pending, pending_left. cbn [session prompt_input].
      now rewrite Hpend.
    + rewrite (render_no_retriever w _ p s v Hkey Hrt). exact Hpend.
  - rewrite (render_no_key w _ p s Hkey). exact Hs.
Qed.

(** ** The query/response cycle *)

(** C1.  For every stored history of N turns and every non-empty query, a
    render whose cycle succeeds (both services answer) appends exactly two
    turns: the user turn holding the query, then the assistant turn holding
    the generator's reply; the history then has N+2 turns. *)
Theorem C1_cycle_appends_user_then_assistant :
  forall w i p s v rt lm history q docs reply,
    secrets w GOOGLE_API_KEY = Some v ->
    engine_of w p = (Some rt, Some lm) ->
    messages s = Some history ->
    query_of i s = Some q ->
    similarity_search w q (search_k rt) = Some docs ->
    generate w (request_of docs history q) = Some reply ->
    q <> ""
    /\ exists r',
         render w i p s = Ret tt r'
         /\ messages (session r')
            = Some (history ++ [HumanMessage q; AIMessage reply])
         /\ length (history ++ [HumanMessage q; AIMessage reply])
            = length history + 2.
Proof.
  intros w i p s v rt lm history q docs reply Hkey Heng Hm Hq Hdocs Hreply.
  split; [apply truthy_nonempty; now destruct (query_of_some i s q Hq) |].
  assert (Hrt : fst (engine_of w p) = Some rt) by now rewrite Heng.
  rewrite (render_query w i p s v rt q Hkey Hrt Hq), respond_run.
  unfold history_of. rewrite Heng, Hm. cbn [snd]. cbv zeta.
  rewrite Hdocs, Hreply.
  eexists. split; [reflexivity |]. cbn [session messages].
  split; [reflexivity |]. rewrite length_app. reflexivity.
Qed.

Lemma C1_cycle_witness :
  "Karna kaun tha" <> ""
  /\ exists r',
       render demo_world (no_click (Some "Karna kaun tha")) fresh_process
         greeted_session = Ret tt r'
       /\ messages (session r')
          = Some ([AIMessage GREETING]
                  ++ [HumanMessage "Karna kaun tha";
                      AIMessage "Karna Surya ka putra tha."])
       /\ length ([AIMessage GREETING]
                  ++ [HumanMessage "Karna kaun tha";
                      AIMessage "Karna Surya ka putra tha."])
          = length [AIMessage GREETING] + 2.
Proof.
  apply (C1_cycle_appends_user_then_assistant
           demo_world (no_click (Some "Karna kaun tha")) fresh_process
           greeted_session "k" {| search_k := 4 |}
           {| model := "gemini-1.5-pro"; convert_system_message_to_human := true |}
           [AIMessage GREETING] "Karna kaun tha" demo_docs
           "Karna Surya ka putra tha.");
    reflexivity.
Defined.

(** ** Startup failures *)

(** C2.  When the cached engine lookup yields no retriever, the render
    stops before any retrieval or generation call, and the stored history
    is exactly what it was: no greeting is added, no user turn appended.
    Whatever the cache holds afterwards has no retriever either. *)
Theorem C2_missing_index_halts_without_mutation :
  forall w i p s,
    fst (engine_of w p) = None ->
    exists r',
      render w i p s = Halt Stopped r'
      /\ messages (session r') = messages s
      /\ calls (trace r') = []
      /\ match engine_cache (proc r') with
         | Some e => fst e = None
         | None => engine_cache p = None
         end.
Proof.
  intros w i p s Hrt.
  destruct (secrets w GOOGLE_API_KEY) as [v |] eqn:Hkey.
  - rewrite (render_no_retriever w i p s v Hkey Hrt).
    eexists. split; [reflexivity |]. cbn [session messages trace proc engine_cache].
    split; [reflexivity |]. split; [| exact Hrt].
    now rewrite calls_app, calls_opening.
  - rewrite (render_no_key w i p s Hkey).
    eexists. split; [reflexivity |]. cbn [session trace proc].
    split; [reflexivity |]. split; [reflexivity |].
    destruct p as [[e |]]; [exact Hrt | reflexivity].
Qed.

Lemma C2_missing_index_witness :
  exists r',
    render no_db_world (click "Arjuna (Warrior)" (Some "Karna kaun tha"))
      fresh_process fresh_session = Halt Stopped r'
    /\ messages (session r') = messages fresh_session
    /\ calls (trace r') = []
    /\ match engine_cache (proc r') with
       | Some e => fst e = None
       | None => engine_cache fresh_process = None
       end.
Proof.
  apply (C2_missing_index_halts_without_mutation
           no_db_world (click "Arjuna (Warrior)" (Some "Karna kaun tha"))
           fresh_process fresh_session).
  reflexivity.
Defined.

(** Once the lookup has been cached without a retriever, every later render
    of the process stops the same way, whatever the world looks like then. *)
Lemma missing_index_every_render steps : forall p s lm,
  engine_cache p = Some (None, lm) ->
  Forall (fun x => exists r',
            x = Halt Stopped r'
            /\ messages (session r') = messages s
            /\ calls (trace r') = [])
         (renders steps p s).
Proof.
  induction steps as [| [w i] rest IH]; intros p s lm Hp; cbn [renders];
    [constructor |].
  assert (Hrt : fst (engine_of w p) = None) by (unfold engine_of; now rewrite Hp).
  assert (He : engine_of w p = (None, lm)) by (unfold engine_of; now rewrite Hp).
  destruct (secrets w GOOGLE_API_KEY) as [v |] eqn:Hkey.
  - rewrite (render_no_retriever w i p s v Hkey Hrt). cbn [run_of proc session].
    constructor.
    + eexists. split; [reflexivity |]. cbn [session messages trace].
      split; [reflexivity | now rewrite calls_app, calls_opening].
    + apply (IH {| engine_cache := Some (engine_of w p) |}
                {| messages := messages s; prompt_input := pending_of i s |} lm).
      cbn [engine_cache]. now rewrite He.
  - rewrite (render_no_key w i p s Hkey). cbn [run_of proc session].
    constructor.
    + eexists. split; [reflexivity |]. now split.
    + now apply (IH _ _ lm).
Qed.

(** C7.  Without the API key in the secrets store the run stops right after
    the page configuration and the style sheet, with the error notice: no
    sidebar, no header, no chat surface, no call to either service, and the
    process and session state are untouched. *)
Theorem C7_missing_key_halts_before_interface :
  forall w i p s,
    secrets w GOOGLE_API_KEY = None ->
    exists r',
      render w i p s = Halt Stopped r'
      /\ trace r' = [EPageConfig "Mahabharat GPT"; EStyle; EError MISSING_KEY]
      /\ filter is_interface (trace r') = []
      /\ calls (trace r') = []
      /\ session r' = s
      /\ proc r' = p.
Proof.
  intros w i p s Hkey. rewrite (render_no_key w i p s Hkey).
  eexists. split; [reflexivity |]. cbn [trace session proc].
  repeat split.
Qed.

Lemma C7_missing_key_witness :
  exists r',
    render no_key_world (click "Arjuna (Warrior)" (Some "Karna kaun tha"))
      fresh_process greeted_session = Halt Stopped r'
    /\ trace r' = [EPageConfig "Mahabharat GPT"; EStyle; EError MISSING_KEY]
    /\ filter is_interface (trace r') = []
    /\ calls (trace r') = []
    /\ session r' = greeted_session
    /\ proc r' = fresh_process.
Proof.
  apply (C7_missing_key_halts_before_interface
           no_key_world (click "Arjuna (Warrior)" (Some "Karna kaun tha"))
           fresh_process greeted_session).
  reflexivity.
Defined.

(** ** The request sent to the generator *)

Lemma append_assoc (a b c : string) :
  ((a ++ b) ++ c)%string = (a ++ b ++ c)%string.
Proof. induction a as [| ch a IH]; cbn; [reflexivity | now rewrite IH]. Qed.

Lemma append_nil_r (a : string) : (a ++ "")%string = a.
Proof. induction a as [| ch a IH]; cbn; [reflexivity | now rewrite IH]. Qed.

(** The system instruction read left to right. *)
Lemma system_prompt_parts c :
  system_prompt c
  = (PERSONA ++ ("CONTEXT:" ++ Py.nl) ++ c ++ (Py.nl ++ Py.nl ++ "RULES:")
     ++ RULE1 ++ RULE2 ++ RULE3 ++ RULE4)%string.
Proof. unfold system_prompt. now rewrite !append_assoc. Qed.

Lemma system_prompt_has_persona c : Py.occurs_in PERSONA (system_prompt c).
Proof.
  exists "", (("CONTEXT:" ++ Py.nl) ++ c ++ (Py.nl ++ Py.nl ++ "RULES:")
              ++ RULE1 ++ RULE2 ++ RULE3 ++ RULE4)%string.
  now rewrite system_prompt_parts.
Qed.

Lemma system_prompt_has_context c : Py.occurs_in c (system_prompt c).
Proof.
  exists (PERSONA ++ "CONTEXT:" ++ Py.nl)%string,
         ((Py.nl ++ Py.nl ++ "RULES:") ++ RULE1 ++ RULE2 ++ RULE3 ++ RULE4)%string.
  now rewrite system_prompt_parts, !append_assoc.
Qed.

Lemma system_prompt_has_rules c :
  Py.occurs_in RULE1 (system_prompt c) /\ Py.occurs_in RULE2 (system_prompt c)
  /\ Py.occurs_in RULE3 (system_prompt c) /\ Py.occurs_in RULE4 (system_prompt c).
Proof.
  set (head := (PERSONA ++ ("CONTEXT:" ++ Py.nl) ++ c
                ++ (Py.nl ++ Py.nl ++ "RULES:"))%string).
  assert (Hsp : system_prompt c = (head ++ RULE1 ++ RULE2 ++ RULE3 ++ RULE4)%string)
    by (rewrite system_prompt_parts; unfold head; now rewrite !append_assoc).
  repeat split.
  - exists head, (RULE2 ++ RULE3 ++ RULE4)%string. exact Hsp.
  - exists (head ++ RULE1)%string, (RULE3 ++ RULE4)%string.
    now rewrite Hsp, !append_assoc.
  - exists (head ++ RULE1 ++ RULE2)%string, RULE4.
    now rewrite Hsp, !append_assoc.
  - exists (head ++ RULE1 ++ RULE2 ++ RULE3)%string, "".
    now rewrite Hsp, !append_assoc, append_nil_r.
Qed.

(** The log of calls of a render that handles [q], once retrieval answered. *)
Lemma render_query_calls w i p s v rt lm q docs :
  secrets w GOOGLE_API_KEY = Some v ->
  engine_of w p = (Some rt, Some lm) ->
  query_of i s = Some q ->
  similarity_search w q (search_k rt) = Some docs ->
  calls (trace (run_of (render w i p s)))
  = [ERetrieve q (search_k rt); EGenerate (request_of docs (history_of s) q)].
Proof.
  intros Hkey Heng Hq Hdocs.
  assert (Hrt : fst (engine_of w p) = Some rt) by now rewrite Heng.
  rewrite (render_query w i p s v rt q Hkey Hrt Hq), respond_run.
  rewrite Heng. cbn [snd]. cbv zeta. rewrite Hdocs.
  destruct (generate w (request_of docs (history_of s) q)) as [reply |];
    cbn [run_of trace];
    rewrite !calls_app, calls_front, calls_retrieval; reflexivity.
Qed.

(** C3.  In every cycle that reaches the generator, the retriever is asked
    once and the generator once, and the generator receives exactly the
    system instruction built for this request (persona, context block, four
    rules) followed by the whole stored history with the new user turn last.
    The system instruction is not stored: a history made of user and
    assistant turns stays so, whether or not the generator answers. *)
Theorem C3_request_is_system_instruction_then_history :
  forall w i p s v rt lm q docs,
    secrets w GOOGLE_API_KEY = Some v ->
    engine_of w p = (Some rt, Some lm) ->
    query_of i s = Some q ->
    similarity_search w q (search_k rt) = Some docs ->
    only_turns s ->
    calls (trace (run_of (render w i p s)))
    = [ERetrieve q (search_k rt);
       EGenerate (SystemMessage (system_prompt (context_of docs))
                    :: history_of s ++ [HumanMessage q])]
    /\ forallb (fun m => negb (is_system m)) (history_of s ++ [HumanMessage q]) = true
    /\ only_turns (session (run_of (render w i p s)))
    /\ extends (history_of s ++ [HumanMessage q]) (session (run_of (render w i p s)))
    /\ Py.occurs_in PERSONA (system_prompt (context_of docs))
    /\ Py.occurs_in (context_of docs) (system_prompt (context_of docs))
    /\ Py.occurs_in RULE1 (system_prompt (context_of docs))
    /\ Py.occurs_in RULE2 (system_prompt (context_of docs))
    /\ Py.occurs_in RULE3 (system_prompt (context_of docs))
    /\ Py.occurs_in RULE4 (system_prompt (context_of docs)).
Proof.
  intros w i p s v rt lm q docs Hkey Heng Hq Hdocs Hs.
  split; [exact (render_query_calls w i p s v rt lm q docs Hkey Heng Hq Hdocs) |].
  split.
  { rewrite forallb_snoc, andb_true_r. unfold only_turns, history_of in *.
    destruct (messages s); [exact Hs | reflexivity]. }
  split; [apply (app_keeps_only_turns w i); exact Hs |].
  split.
  { assert (Hrt : fst (engine_of w p) = Some rt) by now rewrite Heng.
    rewrite (render_query w i p s v rt q Hkey Hrt Hq), respond_run.
    rewrite Heng. cbn [snd]. cbv zeta. rewrite Hdocs.
    destruct (generate w (request_of docs (history_of s) q)) as [reply |];
      cbn [run_of session]; unfold extends; cbn [messages].
    - exists [AIMessage reply]. now rewrite <- app_assoc.
    - exists []. now rewrite app_nil_r. }
  split; [apply system_prompt_has_persona |].
  split; [apply system_prompt_has_context |].
  apply system_prompt_has_rules.
Qed.

Lemma C3_request_witness :
  calls (trace (run_of (render demo_world (no_click (Some "Karna kaun tha"))
                          fresh_process greeted_session)))
  = [ERetrieve "Karna kaun tha" 4;
     EGenerate (SystemMessage (system_prompt (context_of demo_docs))
                  :: history_of greeted_session ++ [HumanMessage "Karna kaun tha"])]
  /\ forallb (fun m => negb (is_system m))
       (history_of greeted_session ++ [HumanMessage "Karna kaun tha"]) = true
  /\ only_turns (session (run_of (render demo_world
                                    (no_click (Some "Karna kaun tha"))
                                    fresh_process greeted_session)))
  /\ extends (history_of greeted_session ++ [HumanMessage "Karna kaun tha"])
       (session (run_of (render demo_world (no_click (Some "Karna kaun tha"))
                           fresh_process greeted_session)))
  /\ Py.occurs_in PERSONA (system_prompt (context_of demo_docs))
  /\ Py.occurs_in (context_of demo_docs) (system_prompt (context_of demo_docs))
  /\ Py.occurs_in RULE1 (system_prompt (context_of demo_docs))
  /\ Py.occurs_in RULE2 (system_prompt (context_of demo_docs))
  /\ Py.occurs_in RULE3 (system_prompt (context_of demo_docs))
  /\ Py.occurs_in RULE4 (system_prompt (context_of demo_docs)).
Proof.
  apply (C3_request_is_system_instruction_then_history
           demo_world (no_click (Some "Karna kaun tha")) fresh_process
           greeted_session "k" {| search_k := 4 |}
           {| model := "gemini-1.5-pro"; convert_system_message_to_human := true |}
           "Karna kaun tha" demo_docs);
    reflexivity.
Defined.

(** ** Retrieval and the context block *)

(** [Py.join] is the standard library's [String.concat]. *)
Lemma join_is_concat sep parts : Py.join sep parts = String.concat sep parts.
Proof.
  induction parts as [| p rest IH]; [reflexivity |].
  destruct rest as [| p' rest']; [reflexivity |].
  cbn [Py.join String.concat] in *. now rewrite IH.
Qed.

(** Two parts or more: the first part, the separator, the rest joined. *)
Lemma join_cons sep p p' rest :
  Py.join sep (p :: p' :: rest) = (p ++ sep ++ Py.join sep (p' :: rest))%string.
Proof. reflexivity. Qed.

Example context_of_demo_docs :
  context_of demo_docs
  = ("Karna was the son of Surya." ++ Py.nl ++ Py.nl
     ++ "He was raised by Adhiratha.")%string.
Proof. reflexivity. Qed.

(** An engine the script built has the retriever configured with [k = 4]
    and comes with its chat model. *)
Lemma built_engine_shape w p rt :
  cache_built p ->
  fst (engine_of w p) = Some rt ->
  search_k rt = 4 /\ exists lm, engine_of w p = (Some rt, Some lm).
Proof.
  unfold cache_built, engine_of.
  assert (Hb : forall w0, fst (build_engine w0) = Some rt ->
               search_k rt = 4 /\ exists lm, build_engine w0 = (Some rt, Some lm)).
  { intros w0. unfold build_engine.
    destruct (negb (path_exists w0 DB_PATH)); cbn; [discriminate |].
    intros [= <-]. split; [reflexivity | eexists; reflexivity]. }
  destruct (engine_cache p) as [e |].
  - intros [w0 ->]. apply Hb.
  - intros _. apply Hb.
Qed.

(** The cache only ever holds what [get_engine] built. *)
Lemma cache_built_kept w i p s :
  cache_built p -> cache_built (proc (run_of (render w i p s))).
Proof.
  intros Hp.
  assert (Hnew : cache_built {| engine_cache := Some (engine_of w p) |}).
  { unfold cache_built, engine_of in *. cbn [engine_cache].
    destruct (engine_cache p) as [e |]; [exact Hp | now exists w]. }
  destruct (secrets w GOOGLE_API_KEY) as [v |] eqn:Hkey.
  - destruct (fst (engine_of w p)) as [rt |] eqn:Hrt.
    + destruct (query_of i s) as [q |] eqn:Hq.
      * rewrite (render_query w i p s v rt q Hkey Hrt Hq), respond_run. cbv zeta.
        destruct (similarity_search w q (search_k rt)); [| exact Hnew].
        destruct (snd (engine_of w p)); [| exact Hnew].
        destruct (generate w _); exact Hnew.
      * rewrite (render_idle w i p s v rt Hkey Hrt Hq). exact Hnew.
    + rewrite (render_no_retriever w i p s v Hkey Hrt). exact Hnew.
  - rewrite (render_no_key w i p s Hkey). exact Hp.
Qed.

Lemma occurs_in_trans a b c :
  Py.occurs_in a b -> Py.occurs_in b c -> Py.occurs_in a c.
Proof.
  intros [b1 [b2 ->]] [c1 [c2 ->]].
  exists (c1 ++ b1)%string, (b2 ++ c2)%string.
  now rewrite !append_assoc.
Qed.

(** Every part of a join occurs in the joined string. *)
Lemma occurs_in_join sep part parts :
  In part parts -> Py.occurs_in part (Py.join sep parts).
Proof.
  induction parts as [| p0 rest IH]; intros Hin; [destruct Hin |].
  destruct rest as [| p1 rest'].
  - destruct Hin as [<- | []]. exists "", "". cbn. now rewrite append_nil_r.
  - rewrite join_cons. destruct Hin as [<- | Hin].
    + exists "", (sep ++ Py.join sep (p1 :: rest'))%string. reflexivity.
    + destruct (IH Hin) as [before [after Hj]]. rewrite Hj.
      exists (p0 ++ sep ++ before)%string, after.
      now rewrite !append_assoc.
Qed.

(** Appending to what was joined so far, from the left. *)
Lemma fold_left_join_head (others : list Document) : forall head block,
  fold_left (fun acc d => (acc ++ Py.nl ++ Py.nl ++ page_content d)%string) others
            (head ++ Py.nl ++ Py.nl ++ block)%string
  = (head ++ Py.nl ++ Py.nl
     ++ fold_left (fun acc d => (acc ++ Py.nl ++ Py.nl ++ page_content d)%string)
                  others block)%string.
Proof.
  induction others as [| d rest IH]; intros head block; cbn [fold_left];
    [reflexivity |].
  now rewrite <- IH, !append_assoc.
Qed.

(** The script's join computes the context block of the specification. *)
Lemma context_of_is_spec docs : context_of docs = context_block_spec docs.
Proof.
  unfold context_of, context_block_spec.
  destruct docs as [| first others]; [reflexivity |].
  revert first. induction others as [| d rest IH]; intros first; [reflexivity |].
  cbn [map fold_left]. rewrite join_cons. cbn [map] in IH. rewrite IH.
  now rewrite fold_left_join_head, append_assoc.
Qed.

(** C6.  For every query the retriever is asked for the top k = 4 passages,
    and the context block placed in the system instruction is exactly the
    context block of the specification: the passage texts in the order the
    retriever returned them, two newlines between consecutive passages.
    Nothing is dropped on the way: the text of every returned passage occurs
    in the block, and the block occurs in the system instruction. *)
Theorem C6_top4_passages_joined_in_retriever_order :
  forall w i p s v rt q docs,
    secrets w GOOGLE_API_KEY = Some v ->
    cache_built p ->
    fst (engine_of w p) = Some rt ->
    query_of i s = Some q ->
    similarity_search w q 4 = Some docs ->
    search_k rt = 4
    /\ calls (trace (run_of (render w i p s)))
       = [ERetrieve q 4;
          EGenerate
            (SystemMessage (system_prompt (context_block_spec docs))
             :: history_of s ++ [HumanMessage q])]
    /\ Py.join (Py.nl ++ Py.nl)%string (map page_content docs)
       = context_block_spec docs
    /\ (forall d, In d docs ->
                  Py.occurs_in (page_content d) (context_block_spec docs))
    /\ Py.occurs_in (context_block_spec docs)
         (system_prompt (context_block_spec docs)).
Proof.
  intros w i p s v rt q docs Hkey Hp Hrt Hq Hdocs.
  destruct (built_engine_shape w p rt Hp Hrt) as [Hk [lm Heng]].
  split; [exact Hk |].
  split.
  { rewrite <- Hk in Hdocs |- *. rewrite <- context_of_is_spec.
    exact (render_query_calls w i p s v rt lm q docs Hkey Heng Hq Hdocs). }
  split; [exact (context_of_is_spec docs) |].
  split; [| apply system_prompt_has_context].
  intros d Hd. rewrite <- context_of_is_spec. unfold context_of.
  apply occurs_in_join. now apply in_map.
Qed.

Lemma C6_top4_witness :
  search_k {| search_k := 4 |} = 4
  /\ calls (trace (run_of (render demo_world (no_click (Some "Karna kaun tha"))
                             fresh_process greeted_session)))
     = [ERetrieve "Karna kaun tha" 4;
        EGenerate
          (SystemMessage (system_prompt (context_block_spec demo_docs))
           :: history_of greeted_session ++ [HumanMessage "Karna kaun tha"])]
  /\ Py.join (Py.nl ++ Py.nl)%string (map page_content demo_docs)
     = context_block_spec demo_docs
  /\ (forall d, In d demo_docs ->
                Py.occurs_in (page_content d) (context_block_spec demo_docs))
  /\ Py.occurs_in (context_block_spec demo_docs)
       (system_prompt (context_block_spec demo_docs)).
Proof.
  apply (C6_top4_passages_joined_in_retriever_order
           demo_world (no_click (Some "Karna kaun tha")) fresh_process
           greeted_session "k" {| search_k := 4 |} "Karna kaun tha" demo_docs);
    [reflexivity | exact I | reflexivity | reflexivity | reflexivity].
Defined.

(** The context block of the two demonstration passages, spelled out. *)
Example context_block_of_demo_docs :
  context_block_spec demo_docs
  = ("Karna was the son of Surya." ++ Py.nl ++ Py.nl
     ++ "He was raised by Adhiratha.")%string.
Proof. reflexivity. Qed.

(** ** Shortcuts *)

(** Only the answers of the buttons in the catalog matter. *)
Lemma pressed_query_ext i j catalog : forall pending,
  (forall label, In label (map fst catalog) -> clicked i label = clicked j label) ->
  pressed_query i catalog pending = pressed_query j catalog pending.
Proof.
  induction catalog as [| [label query] rest IH]; intros pending Hsame;
    cbn [pressed_query]; [reflexivity |].
  rewrite (Hsame label) by now left.
  apply IH. intros l Hl. apply Hsame. now right.
Qed.

(** C8.  When the button labelled "Arjuna (Warrior)" is the one pressed,
    the sidebar block leaves exactly the fixed question about Arjuna as the
    pending prompt, whatever was pending before, and that question is the
    query the run goes on to handle. *)
Theorem C8_arjuna_shortcut_queues_fixed_query :
  forall i r,
    clicked i "Arjuna (Warrior)" = true ->
    (forall label, label <> "Arjuna (Warrior)" -> clicked i label = false) ->
    (exists r',
       sidebar i r = Ret tt r'
       /\ prompt_input (session r')
          = Some "Describe Arjuna's skills, the Gandiva bow, and his bond with Krishna."
       /\ messages (session r') = messages (session r))
    /\ query_of i (session r)
       = Some "Describe Arjuna's skills, the Gandiva bow, and his bond with Krishna.".
Proof.
  intros i r Hon Hoff.
  assert (Hpend : forall pending,
            pressed_query i CATALOG pending
            = Some "Describe Arjuna's skills, the Gandiva bow, and his bond with Krishna.").
  { intros pending.
    rewrite (pressed_query_ext i (click "Arjuna (Warrior)" None)).
    - reflexivity.
    - intros label _. cbn [click clicked].
      destruct (String.eqb_spec "Arjuna (Warrior)" label) as [<- | Hne].
      + exact Hon.
      + apply Hoff. intros ->. now apply Hne. }
  split.
  - destruct r as [p [m pi] t]. rewrite sidebar_run.
    eexists. split; [reflexivity |]. cbn [session prompt_input messages].
    split; [apply Hpend | reflexivity].
  - unfold query_of, user_input_of, pending_of. now rewrite Hpend.
Qed.

Lemma C8_arjuna_witness :
  (exists r',
     sidebar (click "Arjuna (Warrior)" None)
       {| proc := fresh_process; session := greeted_session; trace := [] |}
     = Ret tt r'
     /\ prompt_input (session r')
        = Some "Describe Arjuna's skills, the Gandiva bow, and his bond with Krishna."
     /\ messages (session r') = Some [AIMessage GREETING])
  /\ query_of (click "Arjuna (Warrior)" None) greeted_session
     = Some "Describe Arjuna's skills, the Gandiva bow, and his bond with Krishna.".
Proof.
  apply (C8_arjuna_shortcut_queues_fixed_query
           (click "Arjuna (Warrior)" None)
           {| proc := fresh_process; session := greeted_session; trace := [] |}).
  - reflexivity.
  - intros label Hne. cbn [click clicked].
    destruct (String.eqb_spec "Arjuna (Warrior)" label) as [<- | _];
      [now destruct Hne | reflexivity].
Defined.

(** Later renders without button presses never find a pending prompt. *)
Lemma no_click_renders_nothing_pending later : forall p s,
  nothing_pending s ->
  Forall (fun y => nothing_pending (session (run_of y)))
         (renders (map (fun wt => (fst wt, no_click (snd wt))) later) p s).
Proof.
  induction later as [| [w typed] rest IH]; intros p s Hs; cbn [renders map fst snd];
    [constructor |].
  assert (H := no_click_keeps_nothing_pending w typed p s Hs).
  constructor; [exact H | now apply IH].
Qed.

(** With nothing pending and no button pressed, the only query a run can
    handle is the typed one. *)
Lemma no_click_query typed s :
  nothing_pending s ->
  user_input_of (no_click typed) s = None
  /\ query_of (no_click typed) s = if Py.truthy_opt typed then typed else None.
Proof.
  unfold nothing_pending. intros Hs.
  assert (Hpend : pending_of (no_click typed) s = None)
    by (unfold pending_of; rewrite pressed_query_none; [exact Hs | reflexivity]).
  unfold query_of, user_input_of. rewrite Hpend. cbn.
  split; [reflexivity |]. destruct typed as [t |]; [| reflexivity].
  cbn. destruct (Py.truthy t); reflexivity.
Qed.

(** C4, as stated, fails when the database is missing: the run that sees
    the press stops at the database notice, before the block that reads and
    deletes the pending prompt, so the canned question is neither handled
    nor removed, and later runs still find it in the session store. *)
Lemma C4_missing_database_counterexample :
  In ("Arjuna (Warrior)",
      "Describe Arjuna's skills, the Gandiva bow, and his bond with Krishna.")
     CATALOG
  /\ clicked (click "Arjuna (Warrior)" None) "Arjuna (Warrior)" = true
  /\ map (fun x => (raised x, prompt_input (session (run_of x)),
                    messages (session (run_of x)), calls (trace (run_of x))))
         (renders [(no_db_world, click "Arjuna (Warrior)" None);
                   (no_db_world, no_click None);
                   (demo_world, no_click None)]
            fresh_process greeted_session)
     = [(false,
         Some "Describe Arjuna's skills, the Gandiva bow, and his bond with Krishna.",
         Some [AIMessage GREETING], []);
        (false,
         Some "Describe Arjuna's skills, the Gandiva bow, and his bond with Krishna.",
         Some [AIMessage GREETING], []);
        (false,
         Some "Describe Arjuna's skills, the Gandiva bow, and his bond with Krishna.",
         Some [AIMessage GREETING], [])]
  /\ prompt_input
       (session (run_of (render no_db_world (click "Arjuna (Warrior)" None)
                           fresh_process greeted_session)))
     <> None.
Proof.
  split; [cbn; right; right; left; reflexivity |].
  split; [reflexivity |].
  split; [vm_compute; reflexivity |].
  vm_compute. discriminate.
Qed.

(** C4, amended.  In a run that gets past the startup checks (API key
    present, retriever available), a pressed shortcut is consumed once.  In
    the run that sees the press, the canned question is read as the pending
    query and removed from the session store before the query is handled;
    the store has nothing pending when the run ends, however it ends, and
    stays that way through every later run without a button press, so such a
    run can only handle what was typed. *)
Theorem C4_shortcut_query_consumed_once :
  forall w i p s v rt label query (later : list (World * option string)),
    secrets w GOOGLE_API_KEY = Some v ->
    fst (engine_of w p) = Some rt ->
    In (label, query) CATALOG ->
    clicked i label = true ->
    exists q R,
      In q (map snd CATALOG)
      /\ pending_of i s = Some q
      /\ user_input_of i s = Some q
      /\ query_of i s = Some q
      /\ render w i p s = respond w (Some rt) (snd (engine_of w p)) (Some q) q R
      /\ prompt_input (session R) = None
      /\ prompt_input (session (run_of (render w i p s))) = None
      /\ Forall (fun y => prompt_input (session (run_of y)) = None)
           (renders (map (fun wt => (fst wt, no_click (snd wt))) later)
              (proc (run_of (render w i p s)))
              (session (run_of (render w i p s))))
      /\ forall s' typed,
           prompt_input s' = None ->
           user_input_of (no_click typed) s' = None
           /\ query_of (no_click typed) s'
              = if Py.truthy_opt typed then typed else None.
Proof.
  intros w i p s v rt label query later Hkey Hrt Hin Hclick.
  destruct (pressed_query_clicked CATALOG i label query (prompt_input s) Hin Hclick)
    as [q [Hq Hpend]].
  assert (Htruthy : Py.truthy q = true) by now apply catalog_queries_truthy.
  assert (Hui : user_input_of i s = Some q)
    by (unfold user_input_of, pending_of; rewrite Hpend; cbn; now rewrite Htruthy).
  assert (Hquery : query_of i s = Some q)
    by (unfold query_of, final_query_of; rewrite Hui; cbn [Py.truthy_opt];
        rewrite Htruthy; now rewrite Htruthy).
  assert (Hleft : pending_left i s = None)
    by (unfold pending_left, pending_of; rewrite Hpend; cbn; now rewrite Htruthy).
  assert (Hend : nothing_pending (session (run_of (render w i p s)))).
  { rewrite (render_front w i p s v rt Hkey Hrt).
    apply input_logic_keeps_nothing_pending. exact Hleft. }
  exists q. eexists.
  split; [exact Hq |]. split; [exact Hpend |]. split; [exact Hui |].
  split; [exact Hquery |].
  split; [rewrite (render_query w i p s v rt q Hkey Hrt Hquery), Hui; reflexivity |].
  split; [exact Hleft |]. split; [exact Hend |].
  split; [now apply no_click_renders_nothing_pending |].
  intros s' typed Hs'. now apply no_click_query.
Qed.

Lemma C4_consumed_once_witness :
  exists q R,
    In q (map snd CATALOG)
    /\ pending_of (click "Arjuna (Warrior)" None) greeted_session = Some q
    /\ user_input_of (click "Arjuna (Warrior)" None) greeted_session = Some q
    /\ query_of (click "Arjuna (Warrior)" None) greeted_session = Some q
    /\ render demo_world (click "Arjuna (Warrior)" None) fresh_process greeted_session
       = respond demo_world (Some {| search_k := 4 |})
           (snd (engine_of demo_world fresh_process)) (Some q) q R
    /\ prompt_input (session R) = None
    /\ prompt_input
         (session (run_of (render demo_world (click "Arjuna (Warrior)" None)
                             fresh_process greeted_session))) = None
    /\ Forall (fun y => prompt_input (session (run_of y)) = None)
         (renders
            (map (fun wt => (fst wt, no_click (snd wt)))
               [(demo_world, None); (demo_world, Some "Karna kaun tha")])
            (proc (run_of (render demo_world (click "Arjuna (Warrior)" None)
                             fresh_process greeted_session)))
            (session (run_of (render demo_world (click "Arjuna (Warrior)" None)
                                fresh_process greeted_session))))
    /\ forall s' typed,
         prompt_input s' = None ->
         user_input_of (no_click typed) s' = None
         /\ query_of (no_click typed) s'
            = if Py.truthy_opt typed then typed else None.
Proof.
  apply (C4_shortcut_query_consumed_once
           demo_world (click "Arjuna (Warrior)" None) fresh_process
           greeted_session "k" {| search_k := 4 |}
           "Arjuna (Warrior)"
           "Describe Arjuna's skills, the Gandiva bow, and his bond with Krishna."
           [(demo_world, None); (demo_world, Some "Karna kaun tha")]).
  - reflexivity.
  - reflexivity.
  - cbn. right. right. left. reflexivity.
  - reflexivity.
Defined.

(** ** Bootstrap *)

(** [# Initialize State], closed form. *)
Lemma initialize_state_run r :
  initialize_state r
  = Ret tt {| proc := proc r;
              session := {| messages := Some (history_of (session r));
                            prompt_input := prompt_input (session r) |};
              trace := trace r |}.
Proof.
  destruct r as [p [[history |] pi] t]; reflexivity.
Qed.

(** C5.  The bootstrap block leaves exactly one assistant greeting turn as
    the history of a session that had none, and leaves an existing history
    as it is; running it again changes nothing.  In a render this is the
    history the input handling starts from, and whatever the render goes on
    to do only appends to it. *)
Theorem C5_bootstrap_initialises_once :
  forall w i p s v rt,
    secrets w GOOGLE_API_KEY = Some v ->
    fst (engine_of w p) = Some rt ->
    (exists R,
       render w i p s
       = input_logic w i (Some rt) (snd (engine_of w p)) (user_input_of i s) R
       /\ messages (session R)
          = Some (match messages s with
                  | None => [AIMessage GREETING]
                  | Some history => history
                  end))
    /\ extends (match messages s with
                | None => [AIMessage GREETING]
                | Some history => history
                end)
         (session (run_of (render w i p s)))
    /\ forall r,
         exists r',
           initialize_state r = Ret tt r'
           /\ messages (session r')
              = Some (match messages (session r) with
                      | None => [AIMessage GREETING]
                      | Some history => history
                      end)
           /\ prompt_input (session r') = prompt_input (session r)
           /\ proc r' = proc r
           /\ trace r' = trace r
           /\ initialize_state r' = Ret tt r'.
Proof.
  intros w i p s v rt Hkey Hrt.
  split; [| split].
  - eexists. split; [exact (render_front w i p s v rt Hkey Hrt) | reflexivity].
  - rewrite (render_front w i p s v rt Hkey Hrt).
    apply input_logic_keeps_extends.
    exists []. cbn [session messages]. now rewrite app_nil_r.
  - intros r. eexists. split; [apply initialize_state_run |].
    cbn [session messages prompt_input proc trace].
    repeat (split; [reflexivity |]).
    now rewrite initialize_state_run.
Qed.

Lemma C5_bootstrap_witness :
  (exists R,
     render demo_world (no_click None) fresh_process fresh_session
     = input_logic demo_world (no_click None) (Some {| search_k := 4 |})
         (snd (engine_of demo_world fresh_process))
         (user_input_of (no_click None) fresh_session) R
     /\ messages (session R) = Some [AIMessage GREETING])
  /\ extends [AIMessage GREETING]
       (session (run_of (render demo_world (no_click None) fresh_process
                           fresh_session)))
  /\ forall r,
       exists r',
         initialize_state r = Ret tt r'
         /\ messages (session r')
            = Some (match messages (session r) with
                    | None => [AIMessage GREETING]
                    | Some history => history
                    end)
         /\ prompt_input (session r') = prompt_input (session r)
         /\ proc r' = proc r
         /\ trace r' = trace r
         /\ initialize_state r' = Ret tt r'.
Proof.
  apply (C5_bootstrap_initialises_once
           demo_world (no_click None) fresh_process fresh_session "k"
           {| search_k := 4 |});
    reflexivity.
Defined.

(** A first load and a reload, run: the greeting is stored once. *)
Example first_load_then_reload :
  map (fun x => messages (session (run_of x)))
      (renders [(demo_world, no_click None); (demo_world, no_click None)]
         fresh_process fresh_session)
  = [Some [AIMessage GREETING]; Some [AIMessage GREETING]].
Proof. reflexivity. Qed.

(** ** Renders with nothing to handle *)

(** C9, as stated, fails on a session's first load: with no shortcut and
    no typed text the run still creates the history and stores the
    greeting, so the stored history is not what it was before the run. *)
Lemma C9_first_load_counterexample :
  query_of (no_click None) fresh_session = None
  /\ messages fresh_session = None
  /\ messages (session (run_of (render demo_world (no_click None)
                                  fresh_process fresh_session)))
     = Some [AIMessage GREETING]
  /\ ~ (query_of (no_click None) fresh_session = None ->
        messages (session (run_of (render demo_world (no_click None)
                                     fresh_process fresh_session)))
        = messages fresh_session
        /\ calls (trace (run_of (render demo_world (no_click None)
                                   fresh_process fresh_session))) = []).
Proof.
  split; [reflexivity |]. split; [reflexivity |]. split; [reflexivity |].
  intros H. destruct (H eq_refl) as [Hsame _].
  cbv in Hsame. discriminate Hsame.
Qed.

(** C9, amended.  In every render whose effective query is empty or absent
    neither the retriever nor the generator is called and no turn is
    appended: an existing history is left as it is, and a session without
    one gets at most the single greeting turn of the bootstrap (none when
    the run stops at a startup check). *)
Theorem C9_idle_render_appends_nothing :
  forall w i p s,
    query_of i s = None ->
    calls (trace (run_of (render w i p s))) = []
    /\ messages (session (run_of (render w i p s)))
       = match secrets w GOOGLE_API_KEY, fst (engine_of w p) with
         | Some _, Some _ =>
             Some (match messages s with
                   | None => [AIMessage GREETING]
                   | Some history => history
                   end)
         | _, _ => messages s
         end
    /\ match messages s with
       | Some history =>
           messages (session (run_of (render w i p s))) = Some history
       | None =>
           messages (session (run_of (render w i p s))) = None
           \/ messages (session (run_of (render w i p s)))
              = Some [AIMessage GREETING]
       end.
Proof.
  intros w i p s Hq.
  destruct (secrets w GOOGLE_API_KEY) as [v |] eqn:Hkey.
  - destruct (fst (engine_of w p)) as [rt |] eqn:Hrt.
    + rewrite (render_idle w i p s v rt Hkey Hrt Hq). cbn [run_of trace session messages].
      split; [now rewrite calls_app, calls_front |].
      split; [reflexivity |]. unfold history_of.
      destruct (messages s); [reflexivity | now right].
    + rewrite (render_no_retriever w i p s v Hkey Hrt).
      cbn [run_of trace session messages].
      split; [now rewrite calls_app, calls_opening |].
      split; [reflexivity |]. destruct (messages s); [reflexivity | now left].
  - rewrite (render_no_key w i p s Hkey). cbn [run_of trace session].
    split; [reflexivity |]. split; [reflexivity |].
    destruct (messages s); [reflexivity | now left].
Qed.

Lemma C9_idle_render_witness :
  calls (trace (run_of (render demo_world (no_click None) fresh_process
                          greeted_session))) = []
  /\ messages (session (run_of (render demo_world (no_click None) fresh_process
                                  greeted_session)))
     = Some [AIMessage GREETING]
  /\ messages (session (run_of (render demo_world (no_click None) fresh_process
                                  greeted_session)))
     = Some [AIMessage GREETING].
Proof.
  apply (C9_idle_render_appends_nothing
           demo_world (no_click None) fresh_process greeted_session).
  reflexivity.
Defined.

(** ** Shortcut against typed input *)



(** The same render, run: the user turn stored is the shortcut's question. *)
Example shortcut_beats_typed_text :
  messages (session (run_of (render demo_world
                               (click "Arjuna (Warrior)" (Some "Karna kaun tha"))
                               fresh_process greeted_session)))
  = Some [AIMessage GREETING;
          HumanMessage "Describe Arjuna's skills, the Gandiva bow, and his bond with Krishna.";
          AIMessage "Karna Surya ka putra tha."].
Proof. reflexivity. Qed.

(** ** Beyond the claims: service failures *)

(** X1.  When the retriever answers and the generator raises, the run ends
    with the exception; the user turn is already stored and stays stored
    without an assistant turn after it, and the log ends at the generator
    call: no reply is rendered. *)
Theorem X1_generator_failure_leaves_user_turn :
  forall w i p s v rt lm q docs,
    secrets w GOOGLE_API_KEY = Some v ->
    engine_of w p = (Some rt, Some lm) ->
    query_of i s = Some q ->
    similarity_search w q (search_k rt) = Some docs ->
    generate w (request_of docs (history_of s) q) = None ->
    exists r',
      render w i p s = Halt Raised r'
      /\ messages (session r') = Some (history_of s ++ [HumanMessage q])
      /\ trace r'
         = front_events v s
           ++ [EChatInput "Ask about Dharma, Karma, or the War..."]
           ++ retrieval_events (user_input_of i s) q (search_k rt)
           ++ [EGenerate (request_of docs (history_of s) q)]
      /\ calls (trace r')
         = [ERetrieve q (search_k rt);
            EGenerate (request_of docs (history_of s) q)].
Proof.
  intros w i p s v rt lm q docs Hkey Heng Hq Hdocs Hgen.
  assert (Hrt : fst (engine_of w p) = Some rt) by now rewrite Heng.
  rewrite (render_query w i p s v rt q Hkey Hrt Hq), respond_run.
  rewrite Heng. cbn [snd]. cbv zeta. rewrite Hdocs, Hgen.
  eexists. split; [reflexivity |]. cbn [session messages trace].
  split; [reflexivity |]. split; [now rewrite <- !app_assoc |].
  now rewrite !calls_app, calls_front, calls_retrieval.
Qed.

Lemma X1_generator_failure_witness :
  exists r',
    render failing_generator_world (no_click (Some "Karna kaun tha"))
      fresh_process greeted_session = Halt Raised r'
    /\ messages (session r')
       = Some (history_of greeted_session ++ [HumanMessage "Karna kaun tha"])
    /\ trace r'
       = front_events "k" greeted_session
         ++ [EChatInput "Ask about Dharma, Karma, or the War..."]
         ++ retrieval_events
              (user_input_of (no_click (Some "Karna kaun tha")) greeted_session)
              "Karna kaun tha" 4
         ++ [EGenerate (request_of demo_docs (history_of greeted_session)
                          "Karna kaun tha")]
    /\ calls (trace r')
       = [ERetrieve "Karna kaun tha" 4;
          EGenerate (request_of demo_docs (history_of greeted_session)
                       "Karna kaun tha")].
Proof.
  apply (X1_generator_failure_leaves_user_turn
           failing_generator_world (no_click (Some "Karna kaun tha"))
           fresh_process greeted_session "k" {| search_k := 4 |}
           {| model := "gemini-1.5-pro"; convert_system_message_to_human := true |}
           "Karna kaun tha" demo_docs);
    reflexivity.
Defined.

(** X2.  When the retriever raises, the run ends with the exception before
    the generator is ever called; the user turn is already stored. *)
Theorem X2_retriever_failure_skips_generator :
  forall w i p s v rt q,
    secrets w GOOGLE_API_KEY = Some v ->
    fst (engine_of w p) = Some rt ->
    query_of i s = Some q ->
    similarity_search w q (search_k rt) = None ->
    exists r',
      render w i p s = Halt Raised r'
      /\ messages (session r') = Some (history_of s ++ [HumanMessage q])
      /\ trace r'
         = front_events v s
           ++ [EChatInput "Ask about Dharma, Karma, or the War..."]
           ++ retrieval_events (user_input_of i s) q (search_k rt)
      /\ calls (trace r') = [ERetrieve q (search_k rt)].
Proof.
  intros w i p s v rt q Hkey Hrt Hq Hdocs.
  rewrite (render_query w i p s v rt q Hkey Hrt Hq), respond_run.
  cbv zeta. rewrite Hdocs.
  eexists. split; [reflexivity |]. cbn [session messages trace].
  split; [reflexivity |]. split; [now rewrite <- !app_assoc |].
  now rewrite !calls_app, calls_front, calls_retrieval.
Qed.

Lemma X2_retriever_failure_witness :
  exists r',
    render failing_retriever_world (no_click (Some "Karna kaun tha"))
      fresh_process greeted_session = Halt Raised r'
    /\ messages (session r')
       = Some (history_of greeted_session ++ [HumanMessage "Karna kaun tha"])
    /\ trace r'
       = front_events "k" greeted_session
         ++ [EChatInput "Ask about Dharma, Karma, or the War..."]
         ++ retrieval_events
              (user_input_of (no_click (Some "Karna kaun tha")) greeted_session)
              "Karna kaun tha" 4
    /\ calls (trace r') = [ERetrieve "Karna kaun tha" 4].
Proof.
  apply (X2_retriever_failure_skips_generator
           failing_retriever_world (no_click (Some "Karna kaun tha"))
           fresh_process greeted_session "k" {| search_k := 4 |}
           "Karna kaun tha");
    reflexivity.
Defined.

(** What is left pending after [# Handle Sidebar Clicks] is never truthy. *)
Lemma pending_left_falsy i s : Py.truthy_opt (pending_left i s) = false.
Proof.
  unfold pending_left. destruct (Py.truthy_opt (pending_of i s)) eqn:H;
    [reflexivity | exact H].
Qed.

(** The process state a render leaves. *)
Lemma render_proc w i p s :
  proc (run_of (render w i p s))
  = match secrets w GOOGLE_API_KEY with
    | Some _ => {| engine_cache := Some (engine_of w p) |}
    | None => p
    end.
Proof.
  destruct (secrets w GOOGLE_API_KEY) as [v |] eqn:Hkey.
  - destruct (fst (engine_of w p)) as [rt |] eqn:Hrt.
    + destruct (query_of i s) as [q |] eqn:Hq.
      * rewrite (render_query w i p s v rt q Hkey Hrt Hq), respond_run. cbv zeta.
        destruct (similarity_search w q (search_k rt)); [| reflexivity].
        destruct (snd (engine_of w p)); [| reflexivity].
        destruct (generate w _); reflexivity.
      * now rewrite (render_idle w i p s v rt Hkey Hrt Hq).
    + now rewrite (render_no_retriever w i p s v Hkey Hrt).
  - now rewrite (render_no_key w i p s Hkey).
Qed.

(** With a falsy pending prompt and no button pressed, the typed text is
    the query. *)
Lemma typed_query_of typed s q :
  Py.truthy_opt (prompt_input s) = false ->
  typed = Some q ->
  Py.truthy q = true ->
  user_input_of (no_click typed) s = None
  /\ query_of (no_click typed) s = Some q.
Proof.
  intros Hp -> Hq.
  assert (Hpend : pending_of (no_click (Some q)) s = prompt_input s)
    by (unfold pending_of; now rewrite pressed_query_none).
  unfold query_of, user_input_of, final_query_of. rewrite Hpend, Hp.
  cbn. now rewrite Hq.
Qed.

(** X3.  After a run that died in the generator, the next question is
    handled on top of the orphaned user turn: the generator is sent two user
    turns in a row, and the stored history ends with user, user, assistant. *)
Theorem X3_retry_after_generator_failure :
  forall w i p s v rt lm q docs w' v' q' docs' reply,
    secrets w GOOGLE_API_KEY = Some v ->
    engine_of w p = (Some rt, Some lm) ->
    query_of i s = Some q ->
    similarity_search w q (search_k rt) = Some docs ->
    generate w (request_of docs (history_of s) q) = None ->
    secrets w' GOOGLE_API_KEY = Some v' ->
    Py.truthy q' = true ->
    similarity_search w' q' (search_k rt) = Some docs' ->
    generate w' (request_of docs' (history_of s ++ [HumanMessage q]) q')
    = Some reply ->
    exists r' r'',
      renders [(w, i); (w', no_click (Some q'))] p s
      = [Halt Raised r'; Ret tt r'']
      /\ messages (session r'')
         = Some (history_of s
                 ++ [HumanMessage q; HumanMessage q'; AIMessage reply])
      /\ calls (trace r'')
         = [ERetrieve q' (search_k rt);
            EGenerate
              (SystemMessage (system_prompt (context_of docs'))
               :: history_of s ++ [HumanMessage q; HumanMessage q'])].
Proof.
  intros w i p s v rt lm q docs w' v' q' docs' reply
         Hkey Heng Hq Hdocs Hgen Hkey' Hq' Hdocs' Hgen'.
  assert (Hrt : fst (engine_of w p) = Some rt) by now rewrite Heng.
  cbn [renders].
  assert (Hproc := render_proc w i p s). rewrite Hkey in Hproc. rewrite Hproc.
  rewrite (render_query w i p s v rt q Hkey Hrt Hq), respond_run.
  rewrite Heng. cbn [snd]. cbv zeta. rewrite Hdocs, Hgen. cbn [run_of session].
  set (p' := {| engine_cache := Some (Some rt, Some lm) |}).
  set (s' := {| messages := Some (history_of s ++ [HumanMessage q]);
                prompt_input := pending_left i s |}).
  assert (Heng' : engine_of w' p' = (Some rt, Some lm)) by reflexivity.
  assert (Hrt' : fst (engine_of w' p') = Some rt) by reflexivity.
  destruct (typed_query_of (Some q') s' q' (pending_left_falsy i s) eq_refl Hq')
    as [Hui Hquery].
  change {| engine_cache := Some (Some rt, Some lm) |} with p'.
  rewrite (render_query w' _ p' s' v' rt q' Hkey' Hrt' Hquery), respond_run.
  rewrite Heng'. cbn [snd]. cbv zeta.
  change (history_of s') with (history_of s ++ [HumanMessage q]).
  rewrite Hdocs', Hgen'.
  eexists. eexists. split; [reflexivity |]. cbn [session messages trace].
  split; [now rewrite <- app_assoc |].
  rewrite !calls_app, calls_front, calls_retrieval.
  cbn. unfold request_of. now rewrite <- app_assoc.
Qed.

Lemma X3_retry_witness :
  exists r' r'',
    renders [(failing_generator_world, no_click (Some "Karna kaun tha"));
             (demo_world, no_click (Some "Karna kaun tha?"))]
      fresh_process greeted_session
    = [Halt Raised r'; Ret tt r'']
    /\ messages (session r'')
       = Some (history_of greeted_session
               ++ [HumanMessage "Karna kaun tha";
                   HumanMessage "Karna kaun tha?";
                   AIMessage "Karna Surya ka putra tha."])
    /\ calls (trace r'')
       = [ERetrieve "Karna kaun tha?" 4;
          EGenerate
            (SystemMessage (system_prompt (context_of demo_docs))
             :: history_of greeted_session
                ++ [HumanMessage "Karna kaun tha";
                    HumanMessage "Karna kaun tha?"])].
Proof.
  apply (X3_retry_after_generator_failure
           failing_generator_world (no_click (Some "Karna kaun tha"))
           fresh_process greeted_session "k" {| search_k := 4 |}
           {| model := "gemini-1.5-pro"; convert_system_message_to_human := true |}
           "Karna kaun tha" demo_docs demo_world "k" "Karna kaun tha?"
           demo_docs "Karna Surya ka putra tha.");
    reflexivity.
Defined.

(** ** Beyond the claims: the shape of the stored dialogue *)

(** Induction two elements at a time. *)
Lemma list_pair_ind {A} (P : list A -> Prop) :
  P [] -> (forall x, P [x]) -> (forall x y l, P l -> P (x :: y :: l)) ->
  forall l, P l.
Proof.
  intros H0 H1 H2 l.
  enough (H : P l /\ forall x, P (x :: l)) by apply H.
  induction l as [| y l [IHl IHxl]]; split; auto.
Qed.

Lemma turn_pairs_snoc2 l q reply :
  turn_pairs (l ++ [HumanMessage q; AIMessage reply]) = turn_pairs l.
Proof.
  induction l as [| x | x y l IH] using list_pair_ind.
  - reflexivity.
  - destruct x; reflexivity.
  - destruct x; try reflexivity. destruct y; try reflexivity. exact IH.
Qed.

Lemma turn_pairs_snoc1 l q :
  turn_pairs l = true -> turn_pairs (l ++ [HumanMessage q]) = false.
Proof.
  induction l as [| x | x y l IH] using list_pair_ind.
  - reflexivity.
  - destruct x; discriminate.
  - destruct x; try discriminate. destruct y; try discriminate. exact IH.
Qed.

Lemma alternating_history_of s :
  alternating_session s -> alternating (history_of s) = true.
Proof.
  unfold alternating_session, history_of. destruct (messages s); auto.
Qed.

Lemma alternating_snoc2 l q reply :
  alternating l = true ->
  alternating (l ++ [HumanMessage q; AIMessage reply]) = true.
Proof.
  destruct l as [| [c | c | c] rest]; try discriminate.
  cbn [Datatypes.app alternating]. now rewrite turn_pairs_snoc2.
Qed.

Lemma alternating_snoc1 l q :
  alternating l = true -> alternating (l ++ [HumanMessage q]) = false.
Proof.
  destruct l as [| [c | c | c] rest]; try discriminate.
  cbn [Datatypes.app alternating]. apply turn_pairs_snoc1.
Qed.

(** X4.  A stored dialogue that opens with the assistant and alternates
    from there keeps that shape through every render that does not end in
    an unhandled exception: a completed render adds nothing or a user turn
    followed by an assistant turn, a stopped one adds nothing. *)
Theorem X4_alternation_kept_unless_raised :
  forall w i p s,
    alternating_session s ->
    raised (render w i p s) = false ->
    alternating_session (session (run_of (render w i p s))).
Proof.
  intros w i p s Hs.
  assert (Hh := alternating_history_of s Hs).
  destruct (secrets w GOOGLE_API_KEY) as [v |] eqn:Hkey.
  - destruct (fst (engine_of w p)) as [rt |] eqn:Hrt.
    + destruct (query_of i s) as [q |] eqn:Hq.
      * rewrite (render_query w i p s v rt q Hkey Hrt Hq), respond_run. cbv zeta.
        destruct (similarity_search w q (search_k rt)); [| discriminate].
        destruct (snd (engine_of w p)); [| discriminate].
        destruct (generate w _); [| discriminate].
        intros _. cbn [run_of session]. unfold alternating_session.
        cbn [messages]. now apply alternating_snoc2.
      * rewrite (render_idle w i p s v rt Hkey Hrt Hq). intros _. exact Hh.
    + rewrite (render_no_retriever w i p s v Hkey Hrt). intros _. exact Hs.
  - rewrite (render_no_key w i p s Hkey). intros _. exact Hs.
Qed.

Lemma X4_alternation_witness :
  alternating_session
    (session (run_of (render demo_world (click "Arjuna (Warrior)" None)
                        fresh_process greeted_session))).
Proof.
  apply (X4_alternation_kept_unless_raised
           demo_world (click "Arjuna (Warrior)" None)
           fresh_process greeted_session);
    reflexivity.
Defined.

(** Every run only appends to a history that exists. *)
Lemma app_keeps_extends history w i : preserves (extends history) (app w i).
Proof.
  apply keeps_app; unfold extends; cbn [messages].
  - intros m pi pi' H. exact H.
  - intros pi [tail H]. discriminate H.
  - intros h c pi [tail [= ->]]. eexists (tail ++ [_]). now rewrite <- app_assoc.
  - intros h c pi [tail [= ->]]. eexists (tail ++ [_]). now rewrite <- app_assoc.
Qed.

(** X5.  The stored history is append-only: through any sequence of
    renders of a session, however each one ends, the history present at the
    start remains a prefix of the stored history. *)
Theorem X5_history_is_append_only :
  forall steps p s history,
    extends history s ->
    Forall (fun x => extends history (session (run_of x))) (renders steps p s).
Proof.
  induction steps as [| [w i] rest IH]; intros p s history Hs; cbn [renders];
    [constructor |].
  assert (H : extends history (session (run_of (render w i p s))))
    by (apply (app_keeps_extends history w i); exact Hs).
  constructor; [exact H | now apply IH].
Qed.

Lemma X5_append_only_witness :
  Forall (fun x => extends [AIMessage GREETING] (session (run_of x)))
    (renders [(failing_generator_world, no_click (Some "Karna kaun tha"));
              (demo_world, click "Arjuna (Warrior)" None);
              (no_key_world, no_click None)]
       fresh_process greeted_session).
Proof.
  apply (X5_history_is_append_only
           [(failing_generator_world, no_click (Some "Karna kaun tha"));
            (demo_world, click "Arjuna (Warrior)" None);
            (no_key_world, no_click None)]
           fresh_process greeted_session [AIMessage GREETING]).
  exists []. reflexivity.
Defined.

(** X6.  One render stores at most two turns on top of the bootstrapped
    history, and never fewer turns than were stored before it. *)
Theorem X6_render_adds_at_most_two_turns :
  forall w i p s,
    turns s <= turns (session (run_of (render w i p s)))
    /\ turns (session (run_of (render w i p s))) <= length (history_of s) + 2.
Proof.
  intros w i p s.
  assert (Hle : turns s <= length (history_of s))
    by (unfold turns, history_of; destruct (messages s); cbn; lia).
  unfold turns in *.
  destruct (secrets w GOOGLE_API_KEY) as [v |] eqn:Hkey.
  - destruct (fst (engine_of w p)) as [rt |] eqn:Hrt.
    + destruct (query_of i s) as [q |] eqn:Hq.
      * rewrite (render_query w i p s v rt q Hkey Hrt Hq), respond_run. cbv zeta.
        destruct (similarity_search w q (search_k rt));
          [destruct (snd (engine_of w p)); [destruct (generate w _) |] |];
          cbn [run_of session messages];
          rewrite length_app; cbn [length]; lia.
      * rewrite (render_idle w i p s v rt Hkey Hrt Hq).
        cbn [run_of session messages]. lia.
    + rewrite (render_no_retriever w i p s v Hkey Hrt).
      cbn [run_of session messages]. lia.
  - rewrite (render_no_key w i p s Hkey). cbn [run_of session]. lia.
Qed.

(** ** Beyond the claims: the cached engine *)



(** X8.  A process whose first engine lookup found no database directory
    stays without a retriever: that render and every later one stop at the
    database notice, store nothing in the history and call no service, even
    in worlds where the directory exists by then. *)
Theorem X8_missing_database_is_permanent :
  forall w i steps p s v,
    engine_cache p = None ->
    secrets w GOOGLE_API_KEY = Some v ->
    path_exists w DB_PATH = false ->
    Forall (fun x => exists r',
              x = Halt Stopped r'
              /\ messages (session r') = messages s
              /\ calls (trace r') = [])
           (renders ((w, i) :: steps) p s).
Proof.
  intros w i steps p s v Hp Hkey Hdir.
  assert (Heng : engine_of w p = (None, None))
    by (unfold engine_of, build_engine; now rewrite Hp, Hdir).
  assert (Hrt : fst (engine_of w p) = None) by now rewrite Heng.
  cbn [renders]. rewrite (render_no_retriever w i p s v Hkey Hrt).
  cbn [run_of proc session]. constructor.
  - eexists. split; [reflexivity |]. cbn [session messages trace].
    split; [reflexivity | now rewrite calls_app, calls_opening].
  - apply (missing_index_every_render steps
             {| engine_cache := Some (engine_of w p) |}
             {| messages := messages s; prompt_input := pending_of i s |} None).
    cbn [engine_cache]. now rewrite Heng.
Qed.

Lemma X8_missing_database_witness :
  Forall (fun x => exists r',
            x = Halt Stopped r'
            /\ messages (session r') = messages greeted_session
            /\ calls (trace r') = [])
    (renders ((no_db_world, no_click None)
              :: [(demo_world, no_click (Some "Karna kaun tha"));
                  (demo_world, click "Arjuna (Warrior)" None)])
       fresh_process greeted_session).
Proof.
  apply (X8_missing_database_is_permanent
           no_db_world (no_click None)
           [(demo_world, no_click (Some "Karna kaun tha"));
            (demo_world, click "Arjuna (Warrior)" None)]
           fresh_process greeted_session "k");
    reflexivity.
Defined.

(** ** Beyond the claims: the missing database *)

(** X9.  A shortcut pressed while the database is missing is queued and
    stays queued: the run stops before the block that would consume it, so
    the canned question is still in the session store when the run ends. *)
Theorem X9_shortcut_stays_queued_without_database :
  forall w i p s v label query,
    secrets w GOOGLE_API_KEY = Some v ->
    fst (engine_of w p) = None ->
    In (label, query) CATALOG ->
    clicked i label = true ->
    exists q r',
      In q (map snd CATALOG)
      /\ render w i p s = Halt Stopped r'
      /\ prompt_input (session r') = Some q
      /\ messages (session r') = messages s.
Proof.
  intros w i p s v label query Hkey Hrt Hin Hclick.
  destruct (pressed_query_clicked CATALOG i label query (prompt_input s) Hin Hclick)
    as [q [Hq Hpend]].
  exists q. eexists. split; [exact Hq |].
  split; [exact (render_no_retriever w i p s v Hkey Hrt) |].
  cbn [session prompt_input messages]. split; [exact Hpend | reflexivity].
Qed.

Lemma X9_shortcut_queued_witness :
  exists q r',
    In q (map snd CATALOG)
    /\ render no_db_world (click "Arjuna (Warrior)" None) fresh_process
         greeted_session = Halt Stopped r'
    /\ prompt_input (session r') = Some q
    /\ messages (session r') = messages greeted_session.
Proof.
  apply (X9_shortcut_stays_queued_without_database
           no_db_world (click "Arjuna (Warrior)" None) fresh_process
           greeted_session "k" "Arjuna (Warrior)"
           "Describe Arjuna's skills, the Gandiva bow, and his bond with Krishna.").
  - reflexivity.
  - reflexivity.
  - cbn. right. right. left. reflexivity.
  - reflexivity.
Defined.

(** X10.  With the key present and the database missing, the page still
    gets its sidebar with all twelve buttons and its header; the database
    notice is the last thing rendered, and no element of the chat surface
    (history, input box, spinner) appears. *)
Theorem X10_missing_database_page :
  forall w i p s v,
    secrets w GOOGLE_API_KEY = Some v ->
    fst (engine_of w p) = None ->
    exists r' shown,
      render w i p s = Halt Stopped r'
      /\ trace r' = shown ++ [EError MISSING_DB]
      /\ incl (button_events CATALOG) shown
      /\ length (button_events CATALOG) = 12
      /\ In EHeader shown
      /\ filter is_chat (trace r') = [].
Proof.
  intros w i p s v Hkey Hrt.
  exists (run_of (render w i p s)), (opening_events v).
  rewrite (render_no_retriever w i p s v Hkey Hrt). cbn [run_of trace].
  split; [reflexivity |]. split; [reflexivity |].
  split.
  { intros e He. unfold opening_events, sidebar_events.
    unfold CATALOG, button_events in He. rewrite !map_app in He.
    fold (button_events PANDAVAS) (button_events KAURAVAS)
         (button_events ELDERS) in He.
    apply in_app_or in He. destruct He as [He | He].
    - apply in_or_app. right. apply in_or_app. left. apply in_or_app. right.
      right. apply in_or_app. now left.
    - apply in_app_or in He.
      apply in_or_app. right. apply in_or_app. left. apply in_or_app. right.
      right. apply in_or_app. right. right. apply in_or_app.
      destruct He as [He | He]; [now left |].
      right. right. apply in_or_app. now left. }
  split; [reflexivity |].
  split; [unfold opening_events; apply in_or_app; right; apply in_or_app;
          right; now left |].
  reflexivity.
Qed.

Lemma X10_missing_database_page_witness :
  exists r' shown,
    render no_db_world (no_click None) fresh_process fresh_session
    = Halt Stopped r'
    /\ trace r' = shown ++ [EError MISSING_DB]
    /\ incl (button_events CATALOG) shown
    /\ length (button_events CATALOG) = 12
    /\ In EHeader shown
    /\ filter is_chat (trace r') = [].
Proof.
  apply (X10_missing_database_page
           no_db_world (no_click None) fresh_process fresh_session "k");
    reflexivity.
Defined.

(** ** Beyond the claims: what the page shows *)

Lemma user_bubbles_app t1 t2 :
  user_bubbles (t1 ++ t2) = user_bubbles t1 + user_bubbles t2.
Proof. unfold user_bubbles. now rewrite filter_app, length_app. Qed.

Lemma user_bubbles_history msgs :
  user_bubbles (history_events msgs) = user_turns msgs.
Proof.
  induction msgs as [| msg rest IH]; [reflexivity |].
  unfold history_events in *. cbn [flat_map]. rewrite user_bubbles_app, IH.
  destruct msg; reflexivity.
Qed.

Lemma user_bubbles_front v s :
  user_bubbles (front_events v s) = user_turns (history_of s).
Proof.
  unfold front_events. rewrite user_bubbles_app, user_bubbles_history.
  reflexivity.
Qed.

Lemma user_turns_snoc msgs q :
  user_turns (msgs ++ [HumanMessage q]) = user_turns msgs + 1.
Proof. unfold user_turns. now rewrite filter_app, length_app. Qed.

(** X11.  In a run that handles a query, typed text is echoed in a user
    bubble of its own, a shortcut's question is not: the page of that run
    shows as many user bubbles as there are user turns stored when the run
    ends if the query was typed, and one fewer if it came from a shortcut.
    This holds whether or not the services answer. *)
Theorem X11_shortcut_question_is_not_echoed :
  forall w i p s v rt q,
    secrets w GOOGLE_API_KEY = Some v ->
    fst (engine_of w p) = Some rt ->
    query_of i s = Some q ->
    exists stored,
      messages (session (run_of (render w i p s))) = Some stored
      /\ user_turns stored = user_turns (history_of s) + 1
      /\ user_bubbles (trace (run_of (render w i p s)))
         = if Py.truthy_opt (user_input_of i s)
           then user_turns (history_of s)
           else user_turns (history_of s) + 1.
Proof.
  intros w i p s v rt q Hkey Hrt Hq.
  rewrite (render_query w i p s v rt q Hkey Hrt Hq), respond_run. cbv zeta.
  assert (Hshown :
    user_bubbles ((front_events v s
                   ++ [EChatInput "Ask about Dharma, Karma, or the War..."])
                  ++ retrieval_events (user_input_of i s) q (search_k rt))
    = if Py.truthy_opt (user_input_of i s)
      then user_turns (history_of s)
      else user_turns (history_of s) + 1).
  { rewrite !user_bubbles_app, user_bubbles_front. unfold retrieval_events.
    destruct (Py.truthy_opt (user_input_of i s)); cbn; lia. }
  destruct (similarity_search w q (search_k rt)) as [docs |].
  - destruct (snd (engine_of w p)) as [lm |].
    + destruct (generate w _) as [reply |]; cbn [run_of session trace messages];
        eexists; (split; [reflexivity |]).
      * split.
        -- change [HumanMessage q; AIMessage reply]
             with ([HumanMessage q] ++ [AIMessage reply]).
           rewrite app_assoc. unfold user_turns at 1.
           rewrite filter_app, length_app. fold (user_turns (history_of s ++ [HumanMessage q])).
           rewrite user_turns_snoc. cbn. lia.
        -- rewrite user_bubbles_app, Hshown. cbn.
           destruct (Py.truthy_opt (user_input_of i s)); lia.
      * split; [apply user_turns_snoc |].
        rewrite user_bubbles_app, Hshown. cbn.
        destruct (Py.truthy_opt (user_input_of i s)); lia.
    + cbn [run_of session trace messages]. eexists. split; [reflexivity |].
      split; [apply user_turns_snoc | exact Hshown].
  - cbn [run_of session trace messages]. eexists. split; [reflexivity |].
    split; [apply user_turns_snoc | exact Hshown].
Qed.

Lemma X11_not_echoed_witness :
  exists stored,
    messages (session (run_of (render demo_world (click "Arjuna (Warrior)" None)
                                 fresh_process greeted_session)))
    = Some stored
    /\ user_turns stored = user_turns (history_of greeted_session) + 1
    /\ user_bubbles (trace (run_of (render demo_world
                                      (click "Arjuna (Warrior)" None)
                                      fresh_process greeted_session)))
       = if Py.truthy_opt (user_input_of (click "Arjuna (Warrior)" None)
                             greeted_session)
         then user_turns (history_of greeted_session)
         else user_turns (history_of greeted_session) + 1.
Proof.
  apply (X11_shortcut_question_is_not_echoed
           demo_world (click "Arjuna (Warrior)" None) fresh_process
           greeted_session "k" {| search_k := 4 |}
           "Describe Arjuna's skills, the Gandiva bow, and his bond with Krishna.");
    reflexivity.
Defined.

(** Different histories of user and assistant turns have different bubble
    logs. *)
Lemma history_events_injective :
  forall msgs msgs',
    forallb (fun m => negb (is_system m)) msgs = true ->
    forallb (fun m => negb (is_system m)) msgs' = true ->
    history_events msgs = history_events msgs' ->
    msgs = msgs'.
Proof.
  induction msgs as [| m rest IH]; intros msgs' Hm Hm' Heq.
  - destruct msgs' as [| [c | c | c] rest']; [reflexivity | | |];
      cbn in Hm', Heq; discriminate.
  - destruct msgs' as [| m' rest'].
    + destruct m; cbn in Hm, Heq; discriminate.
    + cbn [forallb] in Hm, Hm'.
      apply andb_true_iff in Hm as [Hm0 Hm]. apply andb_true_iff in Hm' as [Hm0' Hm'].
      unfold history_events in Heq. cbn [flat_map] in Heq.
      destruct m as [c | c | c], m' as [c' | c' | c'];
        try discriminate; cbn [message_events Datatypes.app] in Heq;
        try discriminate;
        injection Heq as -> Hrest; f_equal; now apply IH.
Qed.

(** X12.  The history display is faithful.  Run on two stored histories of
    user and assistant turns from the same page so far, [# Display History]
    completes, leaves the process and the session store as they were, and
    produces the same page only if the two histories are the same: every
    stored turn is shown, in order, under its own role. *)
Theorem X12_history_display_is_injective :
  forall msgs msgs' p pi t,
    forallb (fun m => negb (is_system m)) msgs = true ->
    forallb (fun m => negb (is_system m)) msgs' = true ->
    (exists r,
       display_history
         {| proc := p;
            session := {| messages := Some msgs; prompt_input := pi |};
            trace := t |} = Ret tt r
       /\ proc r = p
       /\ session r = {| messages := Some msgs; prompt_input := pi |})
    /\ (trace (run_of (display_history
                         {| proc := p;
                            session := {| messages := Some msgs;
                                          prompt_input := pi |};
                            trace := t |}))
        = trace (run_of (display_history
                           {| proc := p;
                              session := {| messages := Some msgs';
                                            prompt_input := pi |};
                              trace := t |})) ->
        msgs = msgs').
Proof.
  intros msgs msgs' p pi t Hm Hm'.
  assert (Hrun : forall l,
            display_history
              {| proc := p;
                 session := {| messages := Some l; prompt_input := pi |};
                 trace := t |}
            = Ret tt {| proc := p;
                        session := {| messages := Some l; prompt_input := pi |};
                        trace := t ++ history_events l |}).
  { intros l. unfold display_history, bind, get_session.
    cbn [session messages]. apply display_all_run. }
  split.
  - eexists. split; [apply Hrun |]. split; reflexivity.
  - rewrite !Hrun. cbn [run_of trace]. intros Heq.
    apply app_inv_head in Heq. now apply history_events_injective.
Qed.

Lemma X12_display_witness :
  (exists r,
     display_history
       {| proc := fresh_process;
          session := {| messages := Some [AIMessage GREETING;
                                          HumanMessage "Karna kaun tha"];
                        prompt_input := None |};
          trace := [] |} = Ret tt r
     /\ proc r = fresh_process
     /\ session r = {| messages := Some [AIMessage GREETING;
                                         HumanMessage "Karna kaun tha"];
                       prompt_input := None |})
  /\ (trace (run_of (display_history
                       {| proc := fresh_process;
                          session := {| messages := Some [AIMessage GREETING;
                                                          HumanMessage "Karna kaun tha"];
                                        prompt_input := None |};
                          trace := [] |}))
      = trace (run_of (display_history
                         {| proc := fresh_process;
                            session := {| messages := Some [AIMessage GREETING];
                                          prompt_input := None |};
                            trace := [] |})) ->
      [AIMessage GREETING; HumanMessage "Karna kaun tha"] = [AIMessage GREETING]).
Proof.
  apply (X12_history_display_is_injective
           [AIMessage GREETING; HumanMessage "Karna kaun tha"]
           [AIMessage GREETING] fresh_process None []);
    reflexivity.
Defined.

(** ** Beyond the claims: the context block *)

(** X13.  There is no guard on an empty retrieval: when the retriever
    returns no passage, the generator is still called, with a system
    instruction whose context block is the empty string. *)
Theorem X13_empty_retrieval_still_generates :
  forall w i p s v rt lm q,
    secrets w GOOGLE_API_KEY = Some v ->
    engine_of w p = (Some rt, Some lm) ->
    query_of i s = Some q ->
    similarity_search w q (search_k rt) = Some [] ->
    calls (trace (run_of (render w i p s)))
    = [ERetrieve q (search_k rt);
       EGenerate
         (SystemMessage
            (PERSONA ++ "CONTEXT:" ++ Py.nl ++ Py.nl ++ Py.nl ++ "RULES:"
             ++ RULE1 ++ RULE2 ++ RULE3 ++ RULE4)%string
          :: history_of s ++ [HumanMessage q])].
Proof.
  intros w i p s v rt lm q Hkey Heng Hq Hdocs.
  rewrite (render_query_calls w i p s v rt lm q [] Hkey Heng Hq Hdocs).
  reflexivity.
Qed.

Lemma X13_empty_retrieval_witness :
  calls (trace (run_of (render empty_index_world
                          (no_click (Some "Karna kaun tha"))
                          fresh_process greeted_session)))
  = [ERetrieve "Karna kaun tha" 4;
     EGenerate
       (SystemMessage
          (PERSONA ++ "CONTEXT:" ++ Py.nl ++ Py.nl ++ Py.nl ++ "RULES:"
           ++ RULE1 ++ RULE2 ++ RULE3 ++ RULE4)%string
        :: history_of greeted_session ++ [HumanMessage "Karna kaun tha"])].
Proof.
  apply (X13_empty_retrieval_still_generates
           empty_index_world (no_click (Some "Karna kaun tha"))
           fresh_process greeted_session "k" {| search_k := 4 |}
           {| model := "gemini-1.5-pro"; convert_system_message_to_human := true |}
           "Karna kaun tha");
    reflexivity.
Defined.

(** X14.  Nothing the retriever returned is filtered out on the way to the
    generator: the text of every returned passage occurs in the system
    instruction of the request. *)
Theorem X14_every_passage_reaches_the_generator :
  forall w i p s v rt lm q docs d,
    secrets w GOOGLE_API_KEY = Some v ->
    engine_of w p = (Some rt, Some lm) ->
    query_of i s = Some q ->
    similarity_search w q (search_k rt) = Some docs ->
    In d docs ->
    exists instruction turns_sent,
      calls (trace (run_of (render w i p s)))
      = [ERetrieve q (search_k rt);
         EGenerate (SystemMessage instruction :: turns_sent)]
      /\ Py.occurs_in (page_content d) instruction.
Proof.
  intros w i p s v rt lm q docs d Hkey Heng Hq Hdocs Hd.
  exists (system_prompt (context_of docs)), (history_of s ++ [HumanMessage q]).
  split; [exact (render_query_calls w i p s v rt lm q docs Hkey Heng Hq Hdocs) |].
  apply occurs_in_trans with (b := context_of docs);
    [| apply system_prompt_has_context].
  unfold context_of. apply occurs_in_join. now apply in_map.
Qed.

Lemma X14_every_passage_witness :
  exists instruction turns_sent,
    calls (trace (run_of (render demo_world (no_click (Some "Karna kaun tha"))
                            fresh_process greeted_session)))
    = [ERetrieve "Karna kaun tha" 4;
       EGenerate (SystemMessage instruction :: turns_sent)]
    /\ Py.occurs_in
         (page_content {| page_content := "He was raised by Adhiratha." |})
         instruction.
Proof.
  apply (X14_every_passage_reaches_the_generator
           demo_world (no_click (Some "Karna kaun tha")) fresh_process
           greeted_session "k" {| search_k := 4 |}
           {| model := "gemini-1.5-pro"; convert_system_message_to_human := true |}
           "Karna kaun tha" demo_docs
           {| page_content := "He was raised by Adhiratha." |});
    try reflexivity.
  right. left. reflexivity.
Defined.
